(** * kamerstuk.py: retrieval, classification and memoisation of Kamerstuk
      metadata

    A shallow embedding of [kamerstuk.py] and the properties of its
    classifier, its paginated fetch and its cache.

    Conventions of the embedding.
    - A Python [str] is a [string]; one [ascii] stands for one character
      with code point below 256 (Latin-1).  [str.lower] and the regular
      expression class [\s] are given for exactly that range.  Titles with
      characters from outside it are code point lists, in [Wide].
    - An [xml.etree.ElementTree.Element] is a finite tree [Element]; tags
      are kept in the expanded form [{uri}local] that ElementTree uses.
    - The module globals, the cache file, the requests sent and the lines
      printed make up a [world]; functions with effects are state
      transformers that return, raise, or run out of fuel. *)

From stdpp Require Import gmap strings list.
From Stdlib Require Import Ascii ZArith.
From Equations Require Import Equations.

Local Open Scope Z_scope.

(** ** Python strings *)

Module PyStr.

Definition code (c : ascii) : N := N_of_ascii c.

(** [str.lower] on one character: the upper-case letters below 256 are
    A-Z, U+00C0-U+00D6 and U+00D8-U+00DE; each maps 32 places up. *)
Definition lower_char (c : ascii) : ascii :=
  let n := code c in
  if ((65 <=? n) && (n <=? 90) || (192 <=? n) && (n <=? 214)
      || (216 <=? n) && (n <=? 222))%N
  then ascii_of_N (n + 32) else c.

Fixpoint map (f : ascii -> ascii) (s : string) : string :=
  match s with
  | EmptyString => EmptyString
  | String c s' => String (f c) (map f s')
  end.

(** [s.lower()] *)
Definition lower (s : string) : string := map lower_char s.

(** [s.replace(old, new)] for one-character [old] and [new]. *)
Definition replace_char (old new : ascii) (s : string) : string :=
  map (fun c => if Ascii.eqb c old then new else c) s.

(** [s.startswith(p)] *)
Fixpoint startswith (s p : string) : bool :=
  match p, s with
  | EmptyString, _ => true
  | String _ _, EmptyString => false
  | String b p', String a s' => Ascii.eqb a b && startswith s' p'
  end.

Fixpoint rev_onto (s acc : string) : string :=
  match s with
  | EmptyString => acc
  | String c s' => rev_onto s' (String c acc)
  end.

Definition rev (s : string) : string := rev_onto s EmptyString.

(** [s.endswith(p)] *)
Definition endswith (s p : string) : bool := startswith (rev s) (rev p).

(** [p in s] *)
Fixpoint contains (p s : string) : bool :=
  startswith s p
  || match s with
     | EmptyString => false
     | String _ s' => contains p s'
     end.

Fixpoint drop (n : nat) (s : string) : string :=
  match n, s with
  | O, _ => s
  | S _, EmptyString => EmptyString
  | S n', String _ s' => drop n' s'
  end.

(** [s.split(sep)] for a non-empty [sep]: the pieces between the
    occurrences of [sep], found from the left without overlap.  [skip]
    counts the characters of a separator still to be passed over and [cur]
    holds the current piece in reverse. *)
Fixpoint split_go (sep : string) (skip : nat) (cur : string) (s : string)
  : list string :=
  match skip with
  | S k =>
      match s with
      | EmptyString => [rev cur]
      | String _ s' => split_go sep k cur s'
      end
  | O =>
      match s with
      | EmptyString => [rev cur]
      | String c s' =>
          if startswith s sep
          then rev cur :: split_go sep (Nat.pred (String.length sep)) EmptyString s'
          else split_go sep O (String c cur) s'
      end
  end.

Definition split (s sep : string) : list string := split_go sep O EmptyString s.

(** The characters below 256 that [\s] matches in a [str] pattern. *)
Definition is_space (c : ascii) : bool :=
  let n := code c in
  ((9 <=? n) && (n <=? 13) || (28 <=? n) && (n <=? 32)
   || (n =? 133) || (n =? 160))%N.

Fixpoint remove_spaces (s : string) : string :=
  match s with
  | EmptyString => EmptyString
  | String c s' =>
      if is_space c then remove_spaces s' else String c (remove_spaces s')
  end.

Definition is_digit (c : ascii) : bool :=
  let n := code c in ((48 <=? n) && (n <=? 57))%N.

Definition digit_value (c : ascii) : Z := Z.of_N (code c) - 48.

(** The characters below 256 that [int] skips around a number: the
    whitespace of C below 128, and the two spaces above. *)
Definition is_int_space (c : ascii) : bool :=
  let n := code c in
  ((9 <=? n) && (n <=? 13) || (n =? 32) || (n =? 133) || (n =? 160))%N.

Fixpoint lstrip (s : string) : string :=
  match s with
  | String c s' => if is_int_space c then lstrip s' else s
  | EmptyString => EmptyString
  end.

Definition strip (s : string) : string := rev (lstrip (rev (lstrip s))).

(** Decimal digits with single underscores between them, as [int]
    accepts; [acc] is the value read so far and [after_digit] tells
    whether the previous character was a digit. *)
Fixpoint digits_go (acc : Z) (after_digit : bool) (s : string) : option Z :=
  match s with
  | EmptyString => if after_digit then Some acc else None
  | String c s' =>
      if is_digit c then digits_go (10 * acc + digit_value c) true s'
      else if Ascii.eqb c "_" && after_digit then digits_go acc false s'
      else None
  end.

(** [int(s)]: [None] stands for [ValueError].  (A limit on the number of
    digits, where the interpreter has one, is not part of this.) *)
Definition to_int (s : string) : option Z :=
  match strip s with
  | String "-" s' => Z.opp <$> digits_go 0 false s'
  | String "+" s' => digits_go 0 false s'
  | s' => digits_go 0 false s'
  end.

End PyStr.

(** ** ElementTree elements *)

#[warnings="-register-all"]
Inductive Element : Type :=
  mkElement {
    tag : string;
    attrib : list (string * string);
    text : option string;
    children : list Element
  }.

Module ET.

(** [elem.get(key)]: [attrib] is a dictionary, so the first binding of a
    key is the only one. *)
Fixpoint get (kvs : list (string * string)) (key : string) : option string :=
  match kvs with
  | [] => None
  | (k, v) :: kvs' => if String.eqb k key then Some v else get kvs' key
  end.

(** [elem.iter()]: the element and its descendants in document order. *)
Fixpoint iter (e : Element) : list Element :=
  e :: flat_map iter (children e).

Definition has_tag (t : string) (e : Element) : bool := String.eqb (tag e) t.

Definition has_attr (key value : string) (e : Element) : bool :=
  match get (attrib e) key with
  | Some v => String.eqb v value
  | None => false
  end.

Definition first {A} (l : list A) : option A :=
  match l with
  | [] => None
  | x :: _ => Some x
  end.

(** [elem.find(".//t")]: the first proper descendant with tag [t]. *)
Definition find_descendant (e : Element) (t : string) : option Element :=
  first (List.filter (has_tag t) (flat_map iter (children e))).

(** [elem.find(".//t[@key='value']")] *)
Definition find_descendant_attr (e : Element) (t key value : string)
  : option Element :=
  first (List.filter (has_attr key value)
           (List.filter (has_tag t) (flat_map iter (children e)))).

(** [elem.find("t")]: the first child with tag [t]. *)
Definition find_child (e : Element) (t : string) : option Element :=
  first (List.filter (has_tag t) (children e)).

(** [elem.findall("t1/t2")]: the children tagged [t2] of the children
    tagged [t1], in document order. *)
Definition findall_path2 (e : Element) (t1 t2 : string) : list Element :=
  flat_map (fun c => List.filter (has_tag t2) (children c))
    (List.filter (has_tag t1) (children e)).

End ET.

(** The entries of [XML_NAMESPACES] that the code refers to, and the
    qualified names they expand to. *)
Definition ns_dcterms : string := "http://purl.org/dc/terms/".
Definition ns_overheidwetgeving : string := "http://standaarden.overheid.nl/wetgeving/".
Definition ns_sru : string := "http://docs.oasis-open.org/ns/search-ws/sruResponse".
Definition ns_c : string := "http://standaarden.overheid.nl/collectie/".

Definition qname (ns local : string) : string := "{" +:+ ns +:+ "}" +:+ local.

(** ** Document types *)

Inductive KamerstukType : Type :=
| KONINKLIJKE_BOODSCHAP
| GELEIDENDE_BRIEF
| WETSVOORSTEL
| MEMORIE_VAN_TOELICHTING
| ADVIES_RVS
| VOORLICHTING_RVS
| VERSLAG
| NOTA_NA_VERSLAG
| NOTA_VAN_WIJZIGING
| MEMORIE_VAN_ANTWOORD
| AMENDEMENT
| MOTIE
| BRIEF
| JAARVERSLAG
| ONBEKEND.

Global Instance KamerstukType_eq_dec : EqDecision KamerstukType.
Proof. solve_decision. Defined.

(** The members in definition order, as iterating the enum gives them. *)
Definition KamerstukType_members : list KamerstukType :=
  [ KONINKLIJKE_BOODSCHAP; GELEIDENDE_BRIEF; WETSVOORSTEL;
    MEMORIE_VAN_TOELICHTING; ADVIES_RVS; VOORLICHTING_RVS; VERSLAG;
    NOTA_NA_VERSLAG; NOTA_VAN_WIJZIGING; MEMORIE_VAN_ANTWOORD; AMENDEMENT;
    MOTIE; BRIEF; JAARVERSLAG; ONBEKEND ].

(** [member.value] *)
Definition value (t : KamerstukType) : string :=
  match t with
  | KONINKLIJKE_BOODSCHAP => "Koninklijke boodschap"
  | GELEIDENDE_BRIEF => "Geleidende brief"
  | WETSVOORSTEL => "Voorstel van wet"
  | MEMORIE_VAN_TOELICHTING => "Memorie van toelichting"
  | ADVIES_RVS => "Advies Raad van State"
  | VOORLICHTING_RVS => "Voorlichting van de Afdeling advisering van de Raad van State"
  | VERSLAG => "Verslag"
  | NOTA_NA_VERSLAG => "Nota naar aanleiding van het verslag"
  | NOTA_VAN_WIJZIGING => "Nota van wijziging"
  | MEMORIE_VAN_ANTWOORD => "Memorie van antwoord"
  | AMENDEMENT => "Amendement"
  | MOTIE => "Motie"
  | BRIEF => "Brief"
  | JAARVERSLAG => "Jaarverslag"
  | ONBEKEND => "Onbekend"
  end.

(** [str(member)], as a formatted string literal shows it. *)
Definition member_str (t : KamerstukType) : string :=
  "KamerstukType." +:+
  match t with
  | KONINKLIJKE_BOODSCHAP => "KONINKLIJKE_BOODSCHAP"
  | GELEIDENDE_BRIEF => "GELEIDENDE_BRIEF"
  | WETSVOORSTEL => "WETSVOORSTEL"
  | MEMORIE_VAN_TOELICHTING => "MEMORIE_VAN_TOELICHTING"
  | ADVIES_RVS => "ADVIES_RVS"
  | VOORLICHTING_RVS => "VOORLICHTING_RVS"
  | VERSLAG => "VERSLAG"
  | NOTA_NA_VERSLAG => "NOTA_NA_VERSLAG"
  | NOTA_VAN_WIJZIGING => "NOTA_VAN_WIJZIGING"
  | MEMORIE_VAN_ANTWOORD => "MEMORIE_VAN_ANTWOORD"
  | AMENDEMENT => "AMENDEMENT"
  | MOTIE => "MOTIE"
  | BRIEF => "BRIEF"
  | JAARVERSLAG => "JAARVERSLAG"
  | ONBEKEND => "ONBEKEND"
  end.

(** ** The classifier: [get_kamerstuktype_from_title] *)

(** [title.lower()] followed by [title.replace('0', 'o')]. *)
Definition normalise (title : string) : string :=
  PyStr.replace_char "0" "o" (PyStr.lower title).

(** [title_split[1]], or the empty string on [IndexError]. *)
Definition title_tail_of (title : string) : string :=
  default EmptyString (PyStr.split title "; " !! 1%nat).

(** The type the record itself gives: the text of the first
    [overheidwetgeving:subrubriek] descendant whose [scheme] is
    [OVERHEIDop.KamerstukTypen].  Without such an element the
    [AttributeError] handler yields the empty string; an element
    without text yields [None]. *)
Definition opgegeven_kamerstuktype (record : Element) : option string :=
  match ET.find_descendant_attr record (qname ns_overheidwetgeving "subrubriek")
          "scheme" "OVERHEIDop.KamerstukTypen" with
  | Some e => text e
  | None => Some EmptyString
  end.

(** [opgegeven_kamerstuktype == s]; [None] equals no string. *)
Definition equals_str (hint : option string) (s : string) : bool :=
  match hint with
  | Some h => String.eqb h s
  | None => false
  end.

(** One [if] statement of the cascade: its condition on the normalised
    title and the given type, and the member it returns. *)
Definition rule : Type := (string -> option string -> bool) * KamerstukType.

Local Abbreviation startswith := PyStr.startswith.
Local Abbreviation endswith := PyStr.endswith.
Local Abbreviation contains := PyStr.contains.
Local Abbreviation lower := PyStr.lower.

(** The [if] statements that precede the substring test, in source order. *)
Definition rules_before_lax : list rule :=
  [ (fun title hint => equals_str hint "Brief" || startswith title "brief", BRIEF);
    (fun title hint => equals_str hint "Amendement", AMENDEMENT);
    (fun title hint => equals_str hint "Motie", MOTIE);
    (fun title hint => equals_str hint "Voorstel van wet", WETSVOORSTEL);
    (fun title hint => equals_str hint "Koninklijke boodschap"
                       || startswith title "koninklijke boodschap",
     KONINKLIJKE_BOODSCHAP);
    (fun title hint => equals_str hint "Memorie van toelichting", MEMORIE_VAN_TOELICHTING);
    (fun title hint => equals_str hint "Jaarverslag", JAARVERSLAG);
    (fun title hint => equals_str hint "Verslag", VERSLAG);
    (fun title hint => startswith title "motie" || startswith title "gewijzigde motie",
     MOTIE);
    (fun title hint => startswith title "amendement"
                       || startswith title "gewijzigd amendement",
     AMENDEMENT);
    (fun title hint => startswith title "voorstel van wet"
                       || startswith title "gewijzigd voorstel van wet"
                       || startswith title "ontwerp van wet",
     WETSVOORSTEL);
    (fun title hint => endswith title "voorstel van wet"
                       || endswith title "gewijzigd voorstel van wet",
     WETSVOORSTEL);
    (fun title hint => startswith title "advies afdeling advisering raad van state"
                       || startswith title "advies raad van state",
     ADVIES_RVS);
    (fun title hint => startswith title "voorlopig verslag"
                       || startswith title "verslag"
                       || startswith title "eindverslag"
                       || startswith title "nader voorlopig verslag",
     VERSLAG);
    (fun title hint => endswith title "voorlopig verslag"
                       || endswith title "verslag"
                       || endswith title "eindverslag"
                       || startswith title "nader voorlopig verslag",
     VERSLAG);
    (fun title hint => startswith title "nota naar aanleiding van het"
                       || endswith title "nota naar aanleiding van het",
     NOTA_NA_VERSLAG);
    (fun title hint => startswith title "memorie van toelichting",
     MEMORIE_VAN_TOELICHTING);
    (fun title hint => endswith title "memorie van toelichting",
     MEMORIE_VAN_TOELICHTING);
    (fun title hint => startswith title "memorie van antwoord"
                       || startswith title "nadere memorie van antwoord",
     MEMORIE_VAN_ANTWOORD);
    (fun title hint => endswith title "memorie van antwoord"
                       || endswith title "nadere memorie van antwoord",
     MEMORIE_VAN_ANTWOORD);
    (fun title hint =>
       startswith title "voorlichting van de afdeling advisering van de raad van state",
     VOORLICHTING_RVS);
    (fun title hint => startswith (lower title) "jaarverslag", JAARVERSLAG) ].

(** ["nota van wijziging" in title.lower()] *)
Definition lax_rule : rule :=
  (fun title hint => contains "nota van wijziging" (lower title), NOTA_VAN_WIJZIGING).

Definition rules : list rule := rules_before_lax ++ [lax_rule].

(** The member returned by the first [if] whose condition holds. *)
Fixpoint first_match (rs : list rule) (title : string) (hint : option string)
  : option KamerstukType :=
  match rs with
  | [] => None
  | (cond, ty) :: rs' => if cond title hint then Some ty else first_match rs' title hint
  end.

Definition msg_cant_determine (title : string) : string :=
  "Can't determine KamerstukType for " +:+ title +:+ ", trying to run on the tail".

Definition msg_found (tail_type : KamerstukType) (title_tail : string) : string :=
  "Found type " +:+ member_str tail_type +:+ " using tail " +:+ title_tail.

(** What one call yields: the member returned, the lines printed, and
    the activations of the function it caused (itself first), each with
    the [title] and [is_tail] it was given. *)
Record classified : Type :=
  mkClassified {
    c_type : KamerstukType;
    c_printed : list string;
    c_calls : list (string * bool)
  }.

Equations get_kamerstuktype_from_title
    (title : string) (record : Element) (is_tail : bool) : classified
    by wf (if is_tail then 0 else 1)%nat lt :=
  get_kamerstuktype_from_title title record is_tail
    with first_match rules (normalise title) (opgegeven_kamerstuktype record) := {
    | Some ty => mkClassified ty [] [(title, is_tail)]
    | None with is_tail := {
      | false =>
          let sub :=
            get_kamerstuktype_from_title (title_tail_of (normalise title)) record true in
          mkClassified (c_type sub)
            (msg_cant_determine (normalise title)
               :: c_printed sub
               ++ [msg_found (c_type sub) (title_tail_of (normalise title))])
            ((title, false) :: c_calls sub)
      | true =>
          mkClassified ONBEKEND [msg_cant_determine (normalise title)] [(title, true)] } }.

(** ** The world: module state, cache file, network, standard output *)

(** The dictionary [kst_info] that a lookup builds and caches. *)
Record KstInfo : Type :=
  mkKstInfo {
    dossiernummer : string;
    ondernummer : string;
    vergaderjaar : string;
    kamer : string;
    kamerstuktype : string;
    documenttitel : string;
    dossiertitel : string
  }.

(** What [json.load] gives back; objects are dictionaries. *)
#[warnings="-register-all"]
Inductive json : Type :=
| JNull
| JBool (b : bool)
| JNumber (z : Z)
| JString (s : string)
| JArray (l : list json)
| JObject (m : gmap string json).

(** The cache file [kamerstuk_information.json], by what opening and
    loading it does. *)
Inductive file_state : Type :=
| FileAbsent                (* [open] for reading raises [FileNotFoundError] *)
| FileDenied                (* [open] raises [PermissionError], for reading
                               and for writing *)
| FileUndecodable           (* reading raises [UnicodeDecodeError] *)
| FileNotJson               (* [json.load] raises [JSONDecodeError] *)
| FileJson (doc : json).    (* [json.load] returns [doc] *)

(** One call of [requests.get]: the query parameters that vary. *)
Record request : Type :=
  mkRequest { rq_query : string; startRecord : Z; maximumRecords : Z }.

(** What comes back: no response at all ([requests] raises, as on a
    timeout), or a status code with a body that is well-formed XML
    ([Some]) or not ([None]). *)
Inductive transport : Type :=
| NoResponse
| Response (status_code : Z) (body : option Element).

Inductive exn : Type :=
| AttributeError
| IndexError
| TypeError
| ValueError
| UnboundLocalError (name : string)
| ParseError
| RequestException
| Exception (msg : string)
| FileNotFoundError
| UnicodeDecodeError
| PermissionError.

Record world : Type :=
  mkWorld {
    kamerstuk_information_cache : gmap string (gmap string KstInfo);
    cache_file : file_state;
    requests_sent : list request;
    stdout : list string
  }.

(** The outcome of running a piece of code: it returns, it raises, or the
    fuel given to its loop is used up before the loop ends. *)
Inductive res (A : Type) : Type :=
| Ret (a : A)
| Raise (e : exn)
| OutOfFuel.
Arguments Ret {A} a.
Arguments Raise {A} e.
Arguments OutOfFuel {A}.

Definition M (A : Type) : Type := world -> res A * world.

Definition ret {A} (a : A) : M A := fun w => (Ret a, w).

Definition raise {A} (e : exn) : M A := fun w => (Raise e, w).

Definition out_of_fuel {A} : M A := fun w => (OutOfFuel, w).

Definition bind {A B} (c : M A) (k : A -> M B) : M B :=
  fun w =>
    match c w with
    | (Ret a, w') => k a w'
    | (Raise e, w') => (Raise e, w')
    | (OutOfFuel, w') => (OutOfFuel, w')
    end.

Declare Scope py_scope.
Delimit Scope py_scope with py.
Notation "x <- c ;; k" := (bind c (fun x => k))
  (at level 100, c at next level, right associativity) : py_scope.
Notation "c ;;; k" := (bind c (fun _ => k))
  (at level 100, right associativity) : py_scope.

(** [try: c except AttributeError: h] *)
Definition except_AttributeError {A} (c h : M A) : M A :=
  fun w =>
    match c w with
    | (Raise AttributeError, w') => h w'
    | r => r
    end.

Definition print (line : string) : M unit :=
  fun w =>
    (Ret (), mkWorld (kamerstuk_information_cache w) (cache_file w)
               (requests_sent w) (stdout w ++ [line])).

Definition print_all (lines : list string) : M unit :=
  fun w =>
    (Ret (), mkWorld (kamerstuk_information_cache w) (cache_file w)
               (requests_sent w) (stdout w ++ lines)).

(** ** The cache file *)

Definition json_of_info (i : KstInfo) : json :=
  JObject (list_to_map
    [ ("dossiernummer", JString (dossiernummer i));
      ("ondernummer", JString (ondernummer i));
      ("vergaderjaar", JString (vergaderjaar i));
      ("kamer", JString (kamer i));
      ("kamerstuktype", JString (kamerstuktype i));
      ("documenttitel", JString (documenttitel i));
      ("dossiertitel", JString (dossiertitel i)) ]).

Definition json_of_cache (c : gmap string (gmap string KstInfo)) : json :=
  JObject ((fun inner : gmap string KstInfo => JObject (json_of_info <$> inner)) <$> c).

(** The body of [__load_kamerstuk_information_cache] up to its last
    assignment.  The function has no [global] statement, so the name
    [__kamerstuk_information_cache] it assigns to is a local variable of
    the call; its final value is what this returns. *)
Definition load_local : M json :=
  fun w =>
    match cache_file w with
    | FileAbsent => (Raise FileNotFoundError, w)
    | FileDenied => (Raise PermissionError, w)
    | FileUndecodable => (Raise UnicodeDecodeError, w)
    | FileJson doc => (Ret doc, w)
    | FileNotJson =>
        bind (print "FATAL ERROR LOADING KAMERSTUK CACHE! Using empty cache instead.")
             (fun _ => ret (JObject ∅)) w
    end.

(** The call returns [None] and its local variable is gone. *)
Definition __load_kamerstuk_information_cache : M unit :=
  bind load_local (fun _ => ret ()).

(** Whether [open] for writing succeeds: it creates a file that is absent
    and empties one that exists, unless access is denied. *)
Definition writable (file : file_state) : bool :=
  match file with
  | FileDenied => false
  | _ => true
  end.

(** [json.dump] of the module's cache over the file.  When [open] raises,
    the file is as it was and the exception leaves the function. *)
Definition __save_kamerstuk_information_cache : M unit :=
  fun w =>
    if writable (cache_file w)
    then (Ret (), mkWorld (kamerstuk_information_cache w)
                    (FileJson (json_of_cache (kamerstuk_information_cache w)))
                    (requests_sent w) (stdout w))
    else (Raise PermissionError, w).

(** Importing the module: the cache is bound to the empty dictionary, the
    functions are defined, and the last statement calls the loader. *)
Definition initial_world (file : file_state) : world := mkWorld ∅ file [] [].

Definition startup (file : file_state) : res unit * world :=
  __load_kamerstuk_information_cache (initial_world file).

(** ** The network and the lookup *)

Section Lookup.

(** The remote endpoint: its answer to a request, given the requests it
    has answered before. *)
Variable server : list request -> request -> transport.

Local Open Scope py_scope.

(** [koop_sru_api_request]: one [GET]; anything but status 200 raises, and
    so does a body that [ET.fromstring] rejects. *)
Definition koop_sru_api_request (query : string) (start_record maximum_records : Z)
  : M Element :=
  fun w =>
    let rq := mkRequest query start_record maximum_records in
    let w' := mkWorld (kamerstuk_information_cache w) (cache_file w)
                (requests_sent w ++ [rq]) (stdout w) in
    match server (requests_sent w) rq with
    | NoResponse => (Raise RequestException, w')
    | Response status_code body =>
        if negb (status_code =? 200)
        then (Raise (Exception ("Non-200 status code while retrieving url with query "
                                +:+ query)), w')
        else match body with
             | None => (Raise ParseError, w')
             | Some xml => (Ret xml, w')
             end
    end.

(** [xml.findall("sru:records/sru:record", XML_NAMESPACES)] *)
Definition sru_records (xml : Element) : list Element :=
  ET.findall_path2 xml (qname ns_sru "records") (qname ns_sru "record").

(** [int(xml.find("sru:numberOfRecords", XML_NAMESPACES).text)] *)
Definition sru_number_of_records (xml : Element) : M Z :=
  match ET.find_child xml (qname ns_sru "numberOfRecords") with
  | None => raise AttributeError
  | Some e =>
      match text e with
      | None => raise TypeError
      | Some s =>
          match PyStr.to_int s with
          | None => raise ValueError
          | Some n => ret n
          end
      end
  end.

(** The [while] loop of [koop_sru_api_request_all]; [fuel] bounds the
    number of times its body may run. *)
Fixpoint fetch_more (fuel : nat) (query : string) (start_record maximum_records : Z)
    (number_of_records : Z) (records : list Element) : M (list Element) :=
  if Z.of_nat (length records) <? number_of_records then
    match fuel with
    | O => out_of_fuel
    | S fuel' =>
        let start_record := start_record + maximum_records in
        xml <- koop_sru_api_request query start_record maximum_records ;;
        fetch_more fuel' query start_record maximum_records number_of_records
          (records ++ sru_records xml)
    end
  else ret records.

Definition koop_sru_api_request_all (fuel : nat) (query : string) : M (list Element) :=
  let start_record := 0 in
  let maximum_records := 100 in
  xml <- koop_sru_api_request query start_record maximum_records ;;
  let records := sru_records xml in
  number_of_records <- sru_number_of_records xml ;;
  fetch_more fuel query start_record maximum_records number_of_records records.

(** [record.find(".//ns:local", XML_NAMESPACES).text]: [AttributeError]
    when there is no such element, [None] when it has no text. *)
Definition find_text (record : Element) (ns local : string) : M (option string) :=
  match ET.find_descendant record (qname ns local) with
  | None => raise AttributeError
  | Some e => ret (text e)
  end.

(** [str(x)] for a string or [None]. *)
Definition py_str (x : option string) : string :=
  match x with
  | Some s => s
  | None => "None"
  end.

(** The variables a product-area branch binds: [dossiertitel],
    [documenttitel], [vergaderjaar] and [creator] ([dossiernummer_record]
    and [ondernummer_record] are bound too and never read). *)
Definition fields : Type :=
  (option string * option string * option string * option string)%type.

Definition fields_sgd (record : Element) : M fields :=
  _ <- find_text record ns_overheidwetgeving "dossiernummer" ;;
  _ <- find_text record ns_overheidwetgeving "ondernummer" ;;
  dossiertitel <- find_text record ns_dcterms "title" ;;
  documenttitel <- find_text record ns_dcterms "description" ;;
  vergaderjaar <- find_text record ns_overheidwetgeving "vergaderjaar" ;;
  creator <- find_text record ns_dcterms "creator" ;;
  ret (dossiertitel, documenttitel, vergaderjaar, creator).

Definition fields_officielepublicaties (record : Element) : M fields :=
  _ <- find_text record ns_overheidwetgeving "dossiernummer" ;;
  _ <- find_text record ns_overheidwetgeving "ondernummer" ;;
  dossiertitel <- find_text record ns_overheidwetgeving "dossiertitel" ;;
  documenttitel <-
    except_AttributeError (find_text record ns_overheidwetgeving "documenttitel")
      (except_AttributeError (find_text record ns_dcterms "title")
         (find_text record ns_dcterms "description")) ;;
  vergaderjaar <- find_text record ns_overheidwetgeving "vergaderjaar" ;;
  creator <- find_text record ns_dcterms "creator" ;;
  ret (dossiertitel, documenttitel, vergaderjaar, creator).

Definition kamer_of (creator : option string) : string :=
  if equals_str creator "Tweede Kamer der Staten-Generaal" then "II"
  else if equals_str creator "Eerste Kamer der Staten-Generaal" then "I"
  else "??".

(** [__kamerstuk_information_cache[dossiernummer][ondernummer] = kst_info],
    after binding an empty dictionary to a new [dossiernummer]. *)
Definition cache_store (d o : string) (kst_info : KstInfo) : M unit :=
  fun w =>
    let cache := kamerstuk_information_cache w in
    let inner := default ∅ (cache !! d) in
    (Ret (), mkWorld (<[d := <[o := kst_info]> inner]> cache) (cache_file w)
               (requests_sent w) (stdout w)).

(** The query of a lookup, as the formatted string literal builds it. *)
Definition kst_query (dossiernummer ondernummer : string) : string :=
  "(w.dossiernummer=" +:+ dossiernummer +:+ " AND w.ondernummer="
  +:+ ondernummer +:+ " AND dt.type=Kamerstuk)".

Definition get_kst_information (fuel : nat) (dossiernummer ondernummer : string)
  : M KstInfo :=
  let dossiernummer := PyStr.remove_spaces dossiernummer in
  let ondernummer := PyStr.remove_spaces ondernummer in
  fun w =>
    match kamerstuk_information_cache w !! dossiernummer ≫= (.!! ondernummer) with
    | Some kst_info => (Ret kst_info, w)
    | None =>
      (records <- koop_sru_api_request_all fuel (kst_query dossiernummer ondernummer) ;;
       record <- match records with
                 | [] => raise IndexError
                 | record :: _ => ret record
                 end ;;
       product_area <- find_text record ns_c "product-area" ;;
       bound <- (if equals_str product_area "sgd"
                 then f <- fields_sgd record ;; ret (Some f)
                 else if equals_str product_area "officielepublicaties"
                 then f <- fields_officielepublicaties record ;; ret (Some f)
                 else ret None) ;;
       match bound with
       | None => raise (UnboundLocalError "creator")
       | Some (dossiertitel, documenttitel, vergaderjaar, creator) =>
           let kamer := kamer_of creator in
           match documenttitel with
           | None => raise AttributeError
           | Some title =>
               let c := get_kamerstuktype_from_title title record false in
               print_all (c_printed c) ;;;
               let kst_info :=
                 mkKstInfo dossiernummer ondernummer (py_str vergaderjaar) kamer
                   (value (c_type c)) (py_str documenttitel) (py_str dossiertitel) in
               cache_store dossiernummer ondernummer kst_info ;;;
               __save_kamerstuk_information_cache ;;;
               ret kst_info
           end
       end) w
    end.

(** A run of lookups, one after the other, whatever each one yields. *)
Fixpoint run_lookups (calls : list (nat * string * string)) (w : world) : world :=
  match calls with
  | [] => w
  | (fuel, d, o) :: calls' => run_lookups calls' (snd (get_kst_information fuel d o w))
  end.

End Lookup.

(** ** Sample data *)

Definition leaf (name value : string) : Element := mkElement name [] (Some value) [].

(** A record of the product area [officielepublicaties]. *)
Definition sample_record : Element :=
  mkElement (qname ns_sru "record") [] None
    [ mkElement (qname ns_sru "recordData") [] None
        [ leaf (qname ns_c "product-area") "officielepublicaties";
          leaf (qname ns_overheidwetgeving "dossiernummer") "34550";
          leaf (qname ns_overheidwetgeving "ondernummer") "4";
          leaf (qname ns_overheidwetgeving "dossiertitel") "Nota over de toestand van de financien";
          leaf (qname ns_overheidwetgeving "documenttitel") "Motie van het lid Omtzigt";
          leaf (qname ns_overheidwetgeving "vergaderjaar") "2016-2017";
          leaf (qname ns_dcterms "creator") "Tweede Kamer der Staten-Generaal" ] ].

(** A record of a product area the lookup does not know. *)
Definition foreign_record : Element :=
  mkElement (qname ns_sru "record") [] None
    [ mkElement (qname ns_sru "recordData") [] None
        [ leaf (qname ns_c "product-area") "lokalebekendmakingen";
          leaf (qname ns_dcterms "creator") "Tweede Kamer der Staten-Generaal" ] ].

(** A response that declares [total] records and carries [records]. *)
Definition sru_response (total : string) (records : list Element) : Element :=
  mkElement (qname ns_sru "searchRetrieveResponse") [] None
    [ leaf (qname ns_sru "numberOfRecords") total;
      mkElement (qname ns_sru "records") [] None records ].

Definition sample_server : list request -> request -> transport :=
  fun _ _ => Response 200 (Some (sru_response "1" [sample_record])).

Definition foreign_server : list request -> request -> transport :=
  fun _ _ => Response 200 (Some (sru_response "1" [foreign_record])).

Definition sample_info : KstInfo :=
  mkKstInfo "34550" "4" "2016-2017" "II" "Motie" "Motie van het lid Omtzigt"
    "Nota over de toestand van de financien".

(** A cache file that holds the entry of dossier 34550, number 4. *)
Definition sample_file : file_state :=
  FileJson (json_of_cache {[ "34550" := {[ "4" := sample_info ]} ]}).

(** Page [j] of a result of 250 records, 100 to a page. *)
Definition sample_page (j : nat) : Element :=
  sru_response "250"
    (repeat sample_record (Z.to_nat (Z.min 100 (250 - 100 * Z.of_nat j)))).

Definition paging_server : list request -> request -> transport :=
  fun _ rq => Response 200 (Some (sample_page (Z.to_nat (startRecord rq / 100)))).

(** An endpoint that declares five records, gives two of them on the
    first page and none on any later page; the later pages declare none. *)
Definition stalling_server : list request -> request -> transport :=
  fun _ rq =>
    if startRecord rq =? 0
    then Response 200 (Some (sru_response "5" [sample_record; sample_record]))
    else Response 200 (Some (sru_response "0" [])).

(** ** Notions the properties are stated with *)

(** The fourteen categories that the specification lists for
    DocumentType, in its order: Royal Message, Cover Letter, Bill Proposal,
    Explanatory Memorandum, Council-of-State Advice, Council-of-State
    Guidance, Report, Post-Report Memorandum, Amendment Memorandum
    (Nota van wijziging), Amendment, Motion, Letter, Annual Report,
    Unknown. *)
Definition spec_document_types : list KamerstukType :=
  [ KONINKLIJKE_BOODSCHAP; GELEIDENDE_BRIEF; WETSVOORSTEL;
    MEMORIE_VAN_TOELICHTING; ADVIES_RVS; VOORLICHTING_RVS; VERSLAG;
    NOTA_NA_VERSLAG; NOTA_VAN_WIJZIGING; AMENDEMENT; MOTIE; BRIEF;
    JAARVERSLAG; ONBEKEND ].

(** What [normalise] does to one character. *)
Definition normalise_char (c : ascii) : ascii :=
  if Ascii.eqb (PyStr.lower_char c) "0" then "o"%char else PyStr.lower_char c.

Definition o_or_zero (c : ascii) : bool :=
  Ascii.eqb c "o" || Ascii.eqb c "O" || Ascii.eqb c "0".

(** [c'] may stand where [c] stood: it is [c], or the two differ in
    case only, or both are among the letter o (either case) and the
    digit 0. *)
Definition same_letter (c c' : ascii) : bool :=
  Ascii.eqb c' c || Ascii.eqb c' (PyStr.lower_char c)
  || Ascii.eqb c (PyStr.lower_char c') || o_or_zero c && o_or_zero c'.

(** Two titles that differ, character by character, in case and in
    o against 0 only. *)
Fixpoint title_variant (t t' : string) : bool :=
  match t, t' with
  | EmptyString, EmptyString => true
  | String c s, String c' s' => same_letter c c' && title_variant s s'
  | _, _ => false
  end.

(** A computation that touches the network at most: it leaves the cache,
    the cache file and the output as they were and only adds to the
    requests sent. *)
Definition network_only {A} (c : M A) : Prop :=
  forall w r w', c w = (r, w') ->
    kamerstuk_information_cache w' = kamerstuk_information_cache w
    /\ cache_file w' = cache_file w
    /\ stdout w' = stdout w
    /\ exists more, requests_sent w' = requests_sent w ++ more.

(** A computation without effects: the world it ends in is the world it
    started in. *)
Definition pure {A} (c : M A) : Prop :=
  forall w r w', c w = (r, w') -> w' = w.

(** Two identifiers that are the same once their whitespace is taken out. *)
Definition same_up_to_whitespace (a b : string) : Prop :=
  PyStr.remove_spaces a = PyStr.remove_spaces b.

(** The entry of a pair in a cache. *)
Definition cache_entry (cache : gmap string (gmap string KstInfo)) (d o : string)
  : option KstInfo :=
  cache !! d ≫= (.!! o).

(** The entry of a pair in a parsed cache file. *)
Definition json_entry (doc : json) (d o : string) : option json :=
  match doc with
  | JObject m =>
      match m !! d with
      | Some (JObject inner) => inner !! o
      | _ => None
      end
  | _ => None
  end.

(** Every entry of the cache holds the [value] of a member as its type. *)
Definition types_of_members (cache : gmap string (gmap string KstInfo)) : Prop :=
  forall d o i, cache_entry cache d o = Some i ->
    exists ty, In ty KamerstukType_members /\ kamerstuktype i = value ty.

(** The number of pages of 100 that hold [N] records: N / 100 rounded up. *)
Definition pages_needed (N : Z) : nat := Z.to_nat ((N + 99) / 100).

(** The requests for pages [j], [j + 1], ... ([n] of them), each at the
    offset of its page. *)
Definition page_requests (query : string) (j n : nat) : list request :=
  (fun i => mkRequest query (100 * Z.of_nat i) 100) <$> seq j n.

(** The records of pages [j], [j + 1], ... ([n] of them), page after page. *)
Definition page_records (page : nat -> Element) (j n : nat) : list Element :=
  flat_map (fun i => sru_records (page i)) (seq j n).

(** The world after [more] further requests. *)
Definition after_requests (w : world) (more : list request) : world :=
  mkWorld (kamerstuk_information_cache w) (cache_file w) (requests_sent w ++ more)
    (stdout w).

(** ** Further sample data and notions *)

(** A record that declares its type in a [subrubriek] of the scheme
    [OVERHEIDop.KamerstukTypen]. *)
Definition declaring_record (declared : string) : Element :=
  mkElement (qname ns_sru "record") [] None
    [ mkElement (qname ns_overheidwetgeving "subrubriek")
        [("scheme", "OVERHEIDop.KamerstukTypen")] (Some declared) [] ].

(** The members whose [value] the cascade compares the declared type
    with. *)
Definition declarable_types : list KamerstukType :=
  [ BRIEF; AMENDEMENT; MOTIE; WETSVOORSTEL; KONINKLIJKE_BOODSCHAP;
    MEMORIE_VAN_TOELICHTING; JAARVERSLAG; VERSLAG ].

(** A string without whitespace. *)
Fixpoint no_spaces (s : string) : bool :=
  match s with
  | EmptyString => true
  | String c s' => negb (PyStr.is_space c) && no_spaces s'
  end.

(** A string of whitespace only. *)
Fixpoint all_spaces (s : string) : bool :=
  match s with
  | EmptyString => true
  | String c s' => PyStr.is_space c && all_spaces s'
  end.

(** The world after a lookup that missed the cache has stored [kst_info]
    under the pair, written the cache to the file and printed [printed]. *)
Definition after_store (w : world) (d o : string) (kst_info : KstInfo)
    (printed : list string) : world :=
  let cache :=
    <[d := <[o := kst_info]> (default ∅ (kamerstuk_information_cache w !! d))]>
      (kamerstuk_information_cache w) in
  mkWorld cache (FileJson (json_of_cache cache)) (requests_sent w)
    (stdout w ++ printed).

(** The world after a lookup that missed the cache has stored [kst_info]
    under the pair and printed [printed], and the file could not be
    opened for writing. *)
Definition after_failed_save (w : world) (d o : string) (kst_info : KstInfo)
    (printed : list string) : world :=
  mkWorld
    (<[d := <[o := kst_info]> (default ∅ (kamerstuk_information_cache w !! d))]>
       (kamerstuk_information_cache w))
    (cache_file w) (requests_sent w) (stdout w ++ printed).

(** The Kamerstuk Info that a lookup of the pair builds from the fields
    of [record]. *)
Definition info_of_fields (d o : string) (record : Element)
    (dossiertitel : option string) (title : string)
    (vergaderjaar creator : option string) : KstInfo :=
  mkKstInfo d o (py_str vergaderjaar) (kamer_of creator)
    (value (c_type (get_kamerstuktype_from_title title record false)))
    title (py_str dossiertitel).

(** An endpoint that cannot be reached. *)
Definition dead_server : list request -> request -> transport :=
  fun _ _ => NoResponse.

(** An endpoint that finds nothing. *)
Definition empty_server : list request -> request -> transport :=
  fun _ _ => Response 200 (Some (sru_response "0" [])).

(** A record of the product area [sgd]. *)
Definition legacy_record : Element :=
  mkElement (qname ns_sru "record") [] None
    [ mkElement (qname ns_sru "recordData") [] None
        [ leaf (qname ns_c "product-area") "sgd";
          leaf (qname ns_overheidwetgeving "dossiernummer") "17050";
          leaf (qname ns_overheidwetgeving "ondernummer") "3";
          leaf (qname ns_dcterms "title") "Misbruik en oneigenlijk gebruik";
          leaf (qname ns_dcterms "description") "Memorie van toelichting";
          leaf (qname ns_overheidwetgeving "vergaderjaar") "1981-1982";
          leaf (qname ns_dcterms "creator") "Eerste Kamer der Staten-Generaal" ] ].

Definition legacy_server : list request -> request -> transport :=
  fun _ _ => Response 200 (Some (sru_response "1" [legacy_record])).

(** A record of the product area [officielepublicaties] whose
    [documenttitel] element is empty, beside a [dcterms:title]. *)
Definition untitled_record : Element :=
  mkElement (qname ns_sru "record") [] None
    [ mkElement (qname ns_sru "recordData") [] None
        [ leaf (qname ns_c "product-area") "officielepublicaties";
          leaf (qname ns_overheidwetgeving "dossiernummer") "34550";
          leaf (qname ns_overheidwetgeving "ondernummer") "4";
          leaf (qname ns_overheidwetgeving "dossiertitel") "Nota over de toestand van de financien";
          mkElement (qname ns_overheidwetgeving "documenttitel") [] None [];
          leaf (qname ns_dcterms "title") "Motie van het lid Omtzigt";
          leaf (qname ns_overheidwetgeving "vergaderjaar") "2016-2017";
          leaf (qname ns_dcterms "creator") "Tweede Kamer der Staten-Generaal" ] ].

Definition untitled_server : list request -> request -> transport :=
  fun _ _ => Response 200 (Some (sru_response "1" [untitled_record])).

(** A cache file that holds an entry of another dossier. *)
Definition other_file : file_state :=
  FileJson (json_of_cache {[ "36000" := {[ "1" := sample_info ]} ]}).

(** The element that gives a record of the product area
    [officielepublicaties] its document title: the first that exists of
    [overheidwetgeving:documenttitel], [dcterms:title] and
    [dcterms:description]. *)
Definition documenttitel_element (record : Element) : option Element :=
  match ET.find_descendant record (qname ns_overheidwetgeving "documenttitel") with
  | Some e => Some e
  | None =>
      match ET.find_descendant record (qname ns_dcterms "title") with
      | Some e => Some e
      | None => ET.find_descendant record (qname ns_dcterms "description")
      end
  end.

(** An entry of the cache that is filed under its own numbers, which hold
    no whitespace, and that names a chamber by one of the three codes. *)
Definition well_formed_entry (d o : string) (i : KstInfo) : Prop :=
  dossiernummer i = d /\ ondernummer i = o
  /\ no_spaces d = true /\ no_spaces o = true
  /\ In (kamer i) ["II"; "I"; "??"].

(** A computation that cannot run out of fuel and can raise nothing but
    [AttributeError]. *)
Definition raises_AttributeError_only {A} (c : M A) : Prop :=
  forall w r w', c w = (r, w') ->
    match r with
    | Ret _ => True
    | Raise e => e = AttributeError
    | OutOfFuel => False
    end.

(** ** Titles with characters from outside the 8-bit range *)

Module Wide.

(** The code points of an 8-bit string. *)
Fixpoint codes (s : string) : list N :=
  match s with
  | EmptyString => []
  | String c s' => N_of_ascii c :: codes s'
  end.

(** [str.lower] on one character, for the code points below U+0100 and for
    the dotless i (U+0131) and the long s (U+017F), which are lower-case
    letters already.  [None]: the character is not covered. *)
Definition lower_cp (c : N) : option (list N) :=
  if (c <? 256)%N then Some [N_of_ascii (PyStr.lower_char (ascii_of_N c))]
  else if (c =? 305)%N || (c =? 383)%N then Some [c]
  else None.

(** [str.upper] on one character, for the same code points: a-z and the
    lower-case letters U+00E0-U+00FE (but U+00F7) are 32 places above their
    capitals; the micro sign goes to U+039C, the sharp s to "SS", the y with
    diaeresis to U+0178, the dotless i to "I" and the long s to "S". *)
Definition upper_cp (c : N) : option (list N) :=
  if ((97 <=? c) && (c <=? 122) || (224 <=? c) && (c <=? 246)
      || (248 <=? c) && (c <=? 254))%N then Some [(c - 32)%N]
  else if (c =? 181)%N then Some [924%N]
  else if (c =? 223)%N then Some [83%N; 83%N]
  else if (c =? 255)%N then Some [376%N]
  else if (c <? 256)%N then Some [c]
  else if (c =? 305)%N then Some [73%N]
  else if (c =? 383)%N then Some [83%N]
  else None.

(** A string operation that works character by character. *)
Fixpoint each (f : N -> option (list N)) (s : list N) : option (list N) :=
  match s with
  | [] => Some []
  | c :: s' =>
      match f c, each f s' with
      | Some cs, Some r => Some (cs ++ r)
      | _, _ => None
      end
  end.

(** [s.lower()] and [s.upper()] *)
Definition lower (s : list N) : option (list N) := each lower_cp s.
Definition upper (s : list N) : option (list N) := each upper_cp s.

(** The place of a lower-cased character in the 8-bit strings of the
    cascade.  The literals the title is compared with, the separator "; "
    and the digit 0 are all below U+0080, so a character from U+0100 on
    equals none of their characters; it is put on U+007F, which equals none
    of them either and which lower-casing leaves alone. *)
Definition narrow (c : N) : ascii :=
  if (c <? 256)%N then ascii_of_N c else "127"%char.

Fixpoint narrow_all (s : list N) : string :=
  match s with
  | [] => EmptyString
  | c :: s' => String (narrow c) (narrow_all s')
  end.

(** The member that [get_kamerstuktype_from_title] returns for a title
    given by its code points: the title is lower-cased as a whole and the
    cascade runs on the result. *)
Definition get_kamerstuktype_from_title
    (title : list N) (record : Element) (is_tail : bool) : option KamerstukType :=
  match lower title with
  | Some lowered =>
      Some (c_type (get_kamerstuktype_from_title (narrow_all lowered) record is_tail))
  | None => None
  end.

End Wide.

(** * Worked examples *)

Example split_two : PyStr.split "a; b; c" "; " = ["a"; "b"; "c"].
Proof. reflexivity. Qed.

Example split_none : PyStr.split "abc" "; " = ["abc"].
Proof. reflexivity. Qed.

Example split_edge : PyStr.split "; a;; b; " "; " = [EmptyString; "a;"; "b"; EmptyString].
Proof. reflexivity. Qed.

Example endswith_ex : PyStr.endswith "tweede verslag" "verslag" = true.
Proof. reflexivity. Qed.

Example to_int_ex :
  PyStr.to_int " 1_250 " = Some 1250 /\ PyStr.to_int "-7" = Some (-7)
  /\ PyStr.to_int "1__0" = None /\ PyStr.to_int "12a" = None
  /\ PyStr.to_int EmptyString = None.
Proof. repeat split; reflexivity. Qed.

Example classify_brief :
  c_type (get_kamerstuktype_from_title "Brief over uitvoering"
            (mkElement "record" [] None []) false) = BRIEF.
Proof. reflexivity. Qed.

Example classify_tail :
  get_kamerstuktype_from_title "Regeling van werkzaamheden; M0tie van het lid X"
    (mkElement "record" [] None []) false
  = mkClassified MOTIE
      ["Can't determine KamerstukType for regeling van werkzaamheden; motie van het lid x, trying to run on the tail";
       "Found type KamerstukType.MOTIE using tail motie van het lid x"]
      [("Regeling van werkzaamheden; M0tie van het lid X", false);
       ("motie van het lid x", true)].
Proof. reflexivity. Qed.

(** * Properties of the classifier *)

(** The body of [get_kamerstuktype_from_title], as one equation. *)
Lemma get_kamerstuktype_from_title_body title record is_tail :
  get_kamerstuktype_from_title title record is_tail =
  match first_match rules (normalise title) (opgegeven_kamerstuktype record) with
  | Some ty => mkClassified ty [] [(title, is_tail)]
  | None =>
      if is_tail
      then mkClassified ONBEKEND [msg_cant_determine (normalise title)] [(title, true)]
      else
        let sub :=
          get_kamerstuktype_from_title (title_tail_of (normalise title)) record true in
        mkClassified (c_type sub)
          (msg_cant_determine (normalise title) :: c_printed sub
             ++ [msg_found (c_type sub) (title_tail_of (normalise title))])
          ((title, false) :: c_calls sub)
  end.
Proof.
  rewrite get_kamerstuktype_from_title_equation_1.
  destruct (first_match rules (normalise title) (opgegeven_kamerstuktype record)).
  - now rewrite get_kamerstuktype_from_title_clause_1_equation_1.
  - rewrite get_kamerstuktype_from_title_clause_1_equation_2.
    destruct is_tail.
    + now rewrite get_kamerstuktype_from_title_clause_1_clause_2_equation_1.
    + now rewrite get_kamerstuktype_from_title_clause_1_clause_2_equation_2.
Qed.

(** A tail pass is decided by the cascade alone. *)
Lemma tail_pass title record :
  get_kamerstuktype_from_title title record true =
  match first_match rules (normalise title) (opgegeven_kamerstuktype record) with
  | Some ty => mkClassified ty [] [(title, true)]
  | None => mkClassified ONBEKEND [msg_cant_determine (normalise title)] [(title, true)]
  end.
Proof. now rewrite get_kamerstuktype_from_title_body. Qed.

Lemma KamerstukType_members_complete (t : KamerstukType) : In t KamerstukType_members.
Proof. destruct t; cbv; tauto. Qed.

(** C3. The classifier returns a member of [KamerstukType] for every title,
    record and flag.  The activations of a call are the call itself,
    followed, exactly when no rule matched and the call was not a tail
    pass, by one activation on the tail segment with the flag set.  A tail
    pass that matches no rule returns [ONBEKEND], and the member a first
    pass gets from its tail pass is decided by the cascade on the tail alone:
    a tail pass does not recurse, and no call causes more than two
    activations. *)
Theorem classifier_total_one_level (title : string) (record : Element) (is_tail : bool) :
  In (c_type (get_kamerstuktype_from_title title record is_tail)) KamerstukType_members
  /\ c_calls (get_kamerstuktype_from_title title record is_tail) =
       (title, is_tail) ::
       match first_match rules (normalise title) (opgegeven_kamerstuktype record),
             is_tail with
       | None, false => [(title_tail_of (normalise title), true)]
       | _, _ => []
       end
  /\ c_type (get_kamerstuktype_from_title title record is_tail) =
       match first_match rules (normalise title) (opgegeven_kamerstuktype record) with
       | Some ty => ty
       | None =>
           if is_tail then ONBEKEND
           else default ONBEKEND
                  (first_match rules (normalise (title_tail_of (normalise title)))
                     (opgegeven_kamerstuktype record))
       end
  /\ (length (c_calls (get_kamerstuktype_from_title title record is_tail)) <= 2)%nat
  /\ c_calls (get_kamerstuktype_from_title title record true) = [(title, true)].
Proof.
  split; [apply KamerstukType_members_complete|].
  rewrite (tail_pass title), (get_kamerstuktype_from_title_body title record is_tail).
  destruct (first_match rules (normalise title) (opgegeven_kamerstuktype record))
    as [ty|] eqn:Hm.
  - destruct is_tail; cbn [c_calls c_type length]; repeat split; lia.
  - destruct is_tail; cbn [c_calls c_type length]; [repeat split; lia|].
    cbv zeta. cbn [c_calls c_type].
    rewrite tail_pass.
    destruct (first_match rules (normalise (title_tail_of (normalise title)))
                (opgegeven_kamerstuktype record));
      cbn [c_calls c_type length default]; repeat split; lia.
Qed.

Lemma first_match_app rs1 rs2 title hint :
  first_match (rs1 ++ rs2) title hint =
  match first_match rs1 title hint with
  | Some ty => Some ty
  | None => first_match rs2 title hint
  end.
Proof.
  induction rs1 as [|[cond ty] rs1 IH]; [reflexivity|].
  cbn [app first_match]. now destruct (cond title hint).
Qed.

Lemma normalise_map title : normalise title = PyStr.map normalise_char title.
Proof.
  unfold normalise, PyStr.replace_char, PyStr.lower.
  induction title as [|c s IH]; [reflexivity|].
  cbn [PyStr.map]. now rewrite IH.
Qed.

Lemma lower_normalise_char c : PyStr.lower_char (normalise_char c) = normalise_char c.
Proof. destruct c as [[] [] [] [] [] [] [] []]; reflexivity. Qed.

Lemma normalise_lower_char c : normalise_char (PyStr.lower_char c) = normalise_char c.
Proof. destruct c as [[] [] [] [] [] [] [] []]; reflexivity. Qed.

(** Lower-casing a normalised title changes nothing, so the second
    [lower()] of the last two tests is idle. *)
Lemma lower_normalise title : PyStr.lower (normalise title) = normalise title.
Proof.
  rewrite normalise_map. unfold PyStr.lower.
  induction title as [|c s IH]; [reflexivity|].
  cbn [PyStr.map]. now rewrite lower_normalise_char, IH.
Qed.

(** C7. A title whose normalised form contains "nota van wijziging" and
    which, with its record, satisfies none of the conditions tested before
    the substring test is classified NOTA_VAN_WIJZIGING by the call itself:
    nothing is printed and no tail pass is made. *)
Theorem lax_substring_rule (title : string) (record : Element) (is_tail : bool) :
  first_match rules_before_lax (normalise title) (opgegeven_kamerstuktype record) = None ->
  PyStr.contains "nota van wijziging" (normalise title) = true ->
  get_kamerstuktype_from_title title record is_tail
  = mkClassified NOTA_VAN_WIJZIGING [] [(title, is_tail)].
Proof.
  intros Hearlier Hsub.
  rewrite get_kamerstuktype_from_title_body.
  unfold rules. rewrite first_match_app, Hearlier.
  unfold lax_rule. cbn [first_match].
  now rewrite lower_normalise, Hsub.
Qed.

Lemma lax_substring_rule_witness :
  get_kamerstuktype_from_title "Reactie op de tweede N0TA van wijziging inzake de begroting"
    (mkElement "record" [] None []) false
  = mkClassified NOTA_VAN_WIJZIGING []
      [("Reactie op de tweede N0TA van wijziging inzake de begroting", false)].
Proof. apply lax_substring_rule; reflexivity. Defined.

Lemma same_letter_normalise c c' :
  same_letter c c' = true -> normalise_char c = normalise_char c'.
Proof.
  unfold same_letter, o_or_zero. intros H.
  repeat match type of H with
         | (_ || _) = true => apply orb_prop in H; destruct H as [H|H]
         | (_ && _) = true => apply andb_prop in H; destruct H as [H H']
         end;
    repeat match goal with
           | E : (_ || _) = true |- _ => apply orb_prop in E; destruct E as [E|E]
           end;
    repeat match goal with
           | E : Ascii.eqb _ _ = true |- _ => apply Ascii.eqb_eq in E
           end;
    subst; try reflexivity;
    try (rewrite normalise_lower_char; reflexivity);
    try (match goal with E : _ = PyStr.lower_char _ |- _ => rewrite E end;
         now rewrite normalise_lower_char).
Qed.

Lemma title_variant_normalise t t' :
  title_variant t t' = true -> normalise t = normalise t'.
Proof.
  rewrite !normalise_map. revert t'.
  induction t as [|c s IH]; intros [|c' s'] H; try discriminate; [reflexivity|].
  cbn [title_variant] in H. apply andb_prop in H as [Hc Hs].
  cbn [PyStr.map]. now rewrite (same_letter_normalise _ _ Hc), (IH _ Hs).
Qed.

(** The member returned and the lines printed depend on the title through
    its normalised form only. *)
Lemma classification_of_normalised t t' record is_tail :
  normalise t = normalise t' ->
  c_type (get_kamerstuktype_from_title t record is_tail)
    = c_type (get_kamerstuktype_from_title t' record is_tail)
  /\ c_printed (get_kamerstuktype_from_title t record is_tail)
    = c_printed (get_kamerstuktype_from_title t' record is_tail).
Proof.
  intros H.
  rewrite (get_kamerstuktype_from_title_body t), (get_kamerstuktype_from_title_body t'), H.
  destruct (first_match rules (normalise t') (opgegeven_kamerstuktype record));
    [now split|].
  destruct is_tail; now split.
Qed.



(** * Properties of the fetch and of the lookup *)

(** ** What the parts of a lookup leave alone *)

Lemma network_only_ret {A} (a : A) : network_only (ret a).
Proof.
  intros w r w' [= <- <-]. repeat split. exists []. now rewrite app_nil_r.
Qed.

Lemma network_only_raise {A} (e : exn) : network_only (@raise A e).
Proof.
  intros w r w' [= <- <-]. repeat split. exists []. now rewrite app_nil_r.
Qed.

Lemma network_only_out_of_fuel {A} : network_only (@out_of_fuel A).
Proof.
  intros w r w' [= <- <-]. repeat split. exists []. now rewrite app_nil_r.
Qed.

Lemma network_only_bind {A B} (c : M A) (k : A -> M B) :
  network_only c -> (forall a, network_only (k a)) -> network_only (bind c k).
Proof.
  intros Hc Hk w r w' H. unfold bind in H.
  destruct (c w) as [[a|e|] w1] eqn:E.
  - destruct (Hc _ _ _ E) as (Hc1 & Hc2 & Hc3 & m1 & Hc4).
    destruct (Hk a _ _ _ H) as (Hk1 & Hk2 & Hk3 & m2 & Hk4).
    repeat split; try congruence.
    exists (m1 ++ m2). now rewrite Hk4, Hc4, app_assoc.
  - injection H as <- <-. exact (Hc _ _ _ E).
  - injection H as <- <-. exact (Hc _ _ _ E).
Qed.

Lemma network_only_except {A} (c h : M A) :
  network_only c -> network_only h -> network_only (except_AttributeError c h).
Proof.
  intros Hc Hh w r w' H. unfold except_AttributeError in H.
  destruct (c w) as [[a|e|] w1] eqn:E.
  - injection H as <- <-. exact (Hc _ _ _ E).
  - destruct (Hc _ _ _ E) as (Hc1 & Hc2 & Hc3 & m1 & Hc4).
    destruct e; try (injection H as <- <-; repeat split; eauto; fail).
    destruct (Hh _ _ _ H) as (Hh1 & Hh2 & Hh3 & m2 & Hh4).
    repeat split; try congruence.
    exists (m1 ++ m2). now rewrite Hh4, Hc4, app_assoc.
  - injection H as <- <-. exact (Hc _ _ _ E).
Qed.

Create HintDb network discriminated.
#[local] Hint Resolve network_only_ret network_only_raise network_only_out_of_fuel
  network_only_bind network_only_except : network.

Lemma pure_network_only {A} (c : M A) : pure c -> network_only c.
Proof.
  intros Hc w r w' H. rewrite (Hc _ _ _ H). repeat split.
  exists []. now rewrite app_nil_r.
Qed.

Lemma pure_ret {A} (a : A) : pure (ret a).
Proof. now intros w r w' [= <- <-]. Qed.

Lemma pure_raise {A} (e : exn) : pure (@raise A e).
Proof. now intros w r w' [= <- <-]. Qed.

Lemma pure_bind {A B} (c : M A) (k : A -> M B) :
  pure c -> (forall a, pure (k a)) -> pure (bind c k).
Proof.
  intros Hc Hk w r w' H. unfold bind in H.
  destruct (c w) as [[a|e|] w1] eqn:E; rewrite (Hc _ _ _ E) in *.
  - exact (Hk a _ _ _ H).
  - now injection H as <- <-.
  - now injection H as <- <-.
Qed.

Lemma pure_except {A} (c h : M A) :
  pure c -> pure h -> pure (except_AttributeError c h).
Proof.
  intros Hc Hh w r w' H. unfold except_AttributeError in H.
  destruct (c w) as [[a|e|] w1] eqn:E; rewrite (Hc _ _ _ E) in *.
  - now injection H as <- <-.
  - destruct e; try (now injection H as <- <-). exact (Hh _ _ _ H).
  - now injection H as <- <-.
Qed.

Create HintDb pure discriminated.
#[local] Hint Resolve pure_ret pure_raise pure_bind pure_except : pure.

Lemma pure_find_text record ns local : pure (find_text record ns local).
Proof. unfold find_text. destruct (ET.find_descendant _ _); auto with pure. Qed.
#[local] Hint Resolve pure_find_text : pure.

Lemma pure_fields_sgd record : pure (fields_sgd record).
Proof. unfold fields_sgd. repeat (apply pure_bind; [|intros ?]); auto with pure. Qed.

Lemma pure_fields_officielepublicaties record : pure (fields_officielepublicaties record).
Proof.
  unfold fields_officielepublicaties.
  repeat (apply pure_bind; [|intros ?]); auto 6 with pure.
Qed.
#[local] Hint Resolve pure_fields_sgd pure_fields_officielepublicaties : pure.

Lemma pure_number_of_records xml : pure (sru_number_of_records xml).
Proof.
  unfold sru_number_of_records.
  destruct (ET.find_child _ _) as [e|]; auto with pure.
  destruct (text e) as [s|]; auto with pure.
  destruct (PyStr.to_int s); auto with pure.
Qed.

Lemma network_only_number_of_records xml : network_only (sru_number_of_records xml).
Proof. apply pure_network_only, pure_number_of_records. Qed.
#[local] Hint Resolve network_only_number_of_records : network.

Section LookupProperties.

Variable server : list request -> request -> transport.

(** One request is one more entry in the list of requests sent, whatever
    comes back. *)
Lemma koop_sru_api_request_sends query start_record maximum_records w r w' :
  koop_sru_api_request server query start_record maximum_records w = (r, w') ->
  w' = mkWorld (kamerstuk_information_cache w) (cache_file w)
         (requests_sent w ++ [mkRequest query start_record maximum_records]) (stdout w).
Proof.
  unfold koop_sru_api_request. intros H.
  destruct (server _ _) as [|status_code body]; [now injection H as <- <-|].
  destruct (negb _); [now injection H as <- <-|].
  destruct body; now injection H as <- <-.
Qed.

Lemma network_only_request query start_record maximum_records :
  network_only (koop_sru_api_request server query start_record maximum_records).
Proof.
  intros w r w' H. apply koop_sru_api_request_sends in H. subst w'.
  cbn. repeat split. eauto.
Qed.
#[local] Hint Resolve network_only_request : network.

Lemma network_only_fetch_more fuel query start_record maximum_records n records :
  network_only (fetch_more server fuel query start_record maximum_records n records).
Proof.
  revert start_record records.
  induction fuel as [|fuel IH]; intros start_record records; cbn [fetch_more];
    destruct (_ <? _); auto with network.
Qed.
#[local] Hint Resolve network_only_fetch_more : network.

Lemma network_only_request_all fuel query :
  network_only (koop_sru_api_request_all server fuel query).
Proof.
  unfold koop_sru_api_request_all.
  repeat (apply network_only_bind; [|intros ?]); auto with network.
Qed.

Lemma koop_sru_api_request_all_first fuel query w r w' :
  koop_sru_api_request_all server fuel query w = (r, w') ->
  exists more, requests_sent w' = requests_sent w ++ mkRequest query 0 100 :: more.
Proof.
  unfold koop_sru_api_request_all. intros H. unfold bind at 1 in H.
  destruct (koop_sru_api_request server query 0 100 w) as [[xml|e|] w1] eqn:E;
    apply koop_sru_api_request_sends in E; subst w1.
  - assert (Hrest : network_only
              (bind (sru_number_of_records xml)
                 (fun n => fetch_more server fuel query 0 100 n (sru_records xml))))
      by auto with network.
    destruct (Hrest _ _ _ H) as (_ & _ & _ & more & Hm). cbn in Hm.
    exists more. now rewrite Hm, <- app_assoc.
  - injection H as <- <-. now exists [].
  - injection H as <- <-. now exists [].
Qed.

(** A lookup of a pair that is in the cache returns the entry and leaves
    the world as it was. *)
Lemma lookup_hit fuel d o w kst_info :
  kamerstuk_information_cache w !! PyStr.remove_spaces d
    ≫= (.!! PyStr.remove_spaces o) = Some kst_info ->
  get_kst_information server fuel d o w = (Ret kst_info, w).
Proof. intros H. unfold get_kst_information. cbv zeta. now rewrite H. Qed.

Lemma lookup_miss fuel d o w r w' :
  kamerstuk_information_cache w !! PyStr.remove_spaces d
    ≫= (.!! PyStr.remove_spaces o) = None ->
  get_kst_information server fuel d o w = (r, w') ->
  (exists more,
      requests_sent w' = requests_sent w
        ++ mkRequest (kst_query (PyStr.remove_spaces d) (PyStr.remove_spaces o)) 0 100 :: more)
  /\ match r with
     | Ret kst_info =>
         (exists vj km ty dt dst,
             kst_info = mkKstInfo (PyStr.remove_spaces d) (PyStr.remove_spaces o)
                          vj km (value ty) dt dst)
         /\ kamerstuk_information_cache w' =
              <[PyStr.remove_spaces d :=
                  <[PyStr.remove_spaces o := kst_info]>
                    (default ∅ (kamerstuk_information_cache w !! PyStr.remove_spaces d))]>
                (kamerstuk_information_cache w)
         /\ cache_file w' = FileJson (json_of_cache (kamerstuk_information_cache w'))
     | _ =>
         (kamerstuk_information_cache w' = kamerstuk_information_cache w
          /\ cache_file w' = cache_file w)
         \/ (writable (cache_file w) = false
             /\ r = Raise PermissionError
             /\ cache_file w' = cache_file w
             /\ exists record dst title vj cr,
                  kamerstuk_information_cache w' =
                    <[PyStr.remove_spaces d :=
                        <[PyStr.remove_spaces o :=
                            info_of_fields (PyStr.remove_spaces d) (PyStr.remove_spaces o)
                              record dst title vj cr]>
                          (default ∅ (kamerstuk_information_cache w
                                        !! PyStr.remove_spaces d))]>
                      (kamerstuk_information_cache w))
     end.
Proof.
  intros Hmiss H. unfold get_kst_information in H. cbv zeta in H. rewrite Hmiss in H.
  unfold bind at 1 in H.
  destruct (koop_sru_api_request_all _ _ _ w) as [[records|e|] w1] eqn:E1;
    pose proof (koop_sru_api_request_all_first _ _ _ _ _ E1) as Hfirst;
    destruct (network_only_request_all _ _ _ _ _ E1) as (Hc & Hf & _).
  2,3: injection H as <- <-; split; auto.
  unfold bind at 1 in H.
  destruct records as [|record rest]; [injection H as <- <-; split; auto|].
  cbn [ret] in H.
  unfold bind at 1 in H.
  destruct (find_text record ns_c "product-area" w1) as [[product_area|e|] w2] eqn:E2;
    rewrite (pure_find_text _ _ _ _ _ _ E2) in *; clear E2.
  2,3: injection H as <- <-; split; auto.
  unfold bind at 1 in H.
  match type of H with
  | match ?c w1 with _ => _ end = _ =>
      assert (Hpure : pure c)
        by (destruct (equals_str product_area "sgd");
            [|destruct (equals_str product_area "officielepublicaties")];
            auto with pure);
      destruct (c w1) as [[bound|e|] w3] eqn:E3;
      rewrite (Hpure _ _ _ E3) in *; clear E3 Hpure
  end.
  2,3: injection H as <- <-; split; auto.
  destruct bound as [[[[dst dt] vj] cr]|]; [|injection H as <- <-; split; auto].
  destruct dt as [title|]; [|injection H as <- <-; split; auto].
  unfold bind, print_all, cache_store, __save_kamerstuk_information_cache, ret in H.
  cbn [kamerstuk_information_cache cache_file requests_sent stdout] in H.
  rewrite Hf in H.
  destruct (writable (cache_file w)) eqn:Hwr; injection H as <- <-;
    cbn [kamerstuk_information_cache cache_file requests_sent stdout];
    rewrite Hc; (split; [auto|]).
  - split; [eauto 10|]. split; reflexivity.
  - right. split; [reflexivity|]. split; [reflexivity|].
    split; [first [exact Hf|reflexivity]|].
    exists record, dst, title, vj, cr. reflexivity.
Qed.

End LookupProperties.

Example sample_lookup :
  get_kst_information sample_server 0 " 34 550" "4 " (initial_world FileAbsent)
  = (Ret sample_info,
     mkWorld {[ "34550" := {[ "4" := sample_info ]} ]} sample_file
       [mkRequest "(w.dossiernummer=34550 AND w.ondernummer=4 AND dt.type=Kamerstuk)" 0 100]
       []).
Proof. vm_compute. reflexivity. Qed.

Lemma cache_entry_store (cache : gmap string (gmap string KstInfo)) d o i d0 o0 :
  cache_entry (<[d := <[o := i]> (default ∅ (cache !! d))]> cache) d0 o0
  = if decide (d0 = d /\ o0 = o) then Some i else cache_entry cache d0 o0.
Proof.
  unfold cache_entry.
  destruct (decide (d0 = d)) as [->|Hd].
  - rewrite lookup_insert_eq. cbn.
    destruct (decide (o0 = o)) as [->|Ho].
    + rewrite lookup_insert_eq. now rewrite decide_True.
    + rewrite lookup_insert_ne by congruence.
      rewrite decide_False by tauto.
      now destruct (cache !! d).
  - rewrite lookup_insert_ne by congruence. now rewrite decide_False by tauto.
Qed.

Section CacheProperties.

Variable server : list request -> request -> transport.

(** A lookup never removes or replaces an entry of the cache. *)
Lemma lookup_keeps_entries fuel d o w r w' d0 o0 i :
  get_kst_information server fuel d o w = (r, w') ->
  cache_entry (kamerstuk_information_cache w) d0 o0 = Some i ->
  cache_entry (kamerstuk_information_cache w') d0 o0 = Some i.
Proof.
  intros H Hin.
  destruct (cache_entry (kamerstuk_information_cache w)
              (PyStr.remove_spaces d) (PyStr.remove_spaces o)) as [j|] eqn:Hc.
  - rewrite (lookup_hit server fuel d o w j Hc) in H. now injection H as <- <-.
  - assert (Hstore : forall x,
               cache_entry
                 (<[PyStr.remove_spaces d :=
                      <[PyStr.remove_spaces o := x]>
                        (default ∅ (kamerstuk_information_cache w
                                      !! PyStr.remove_spaces d))]>
                    (kamerstuk_information_cache w)) d0 o0 = Some i).
    { intros x. rewrite cache_entry_store.
      destruct (decide _) as [[-> ->]|]; [congruence|exact Hin]. }
    destruct (lookup_miss server fuel d o w r w' Hc H) as [_ Hr].
    destruct r as [kst_info|e|].
    + destruct Hr as (_ & -> & _). apply Hstore.
    + destruct Hr as [[-> _]|(_ & _ & _ & record & dst & title & vj & cr & ->)];
        [exact Hin|apply Hstore].
    + destruct Hr as [[-> _]|(_ & _ & _ & record & dst & title & vj & cr & ->)];
        [exact Hin|apply Hstore].
Qed.

Lemma run_lookups_keep_entries calls w d0 o0 i :
  cache_entry (kamerstuk_information_cache w) d0 o0 = Some i ->
  cache_entry (kamerstuk_information_cache (run_lookups server calls w)) d0 o0 = Some i.
Proof.
  revert w. induction calls as [|[[fuel d] o] calls IH]; intros w H; [exact H|].
  cbn [run_lookups]. apply IH.
  destruct (get_kst_information server fuel d o w) as [r w'] eqn:E.
  exact (lookup_keeps_entries _ _ _ _ _ _ _ _ _ E H).
Qed.

(** After a lookup that returned, the pair is in the cache with the value
    returned. *)
Lemma lookup_returned_is_cached fuel d o w kst_info w1 :
  get_kst_information server fuel d o w = (Ret kst_info, w1) ->
  cache_entry (kamerstuk_information_cache w1)
    (PyStr.remove_spaces d) (PyStr.remove_spaces o) = Some kst_info.
Proof.
  intros H.
  destruct (cache_entry (kamerstuk_information_cache w)
              (PyStr.remove_spaces d) (PyStr.remove_spaces o)) as [j|] eqn:Hc.
  - rewrite (lookup_hit server fuel d o w j Hc) in H. now injection H as <- <-.
  - destruct (lookup_miss server fuel d o w _ w1 Hc H) as (_ & _ & -> & _).
    unfold cache_entry. rewrite lookup_insert_eq. cbn. apply lookup_insert_eq.
Qed.

(** C1. After a lookup of a pair has returned, a lookup of the same pair,
    written with any other whitespace, returns the same value and leaves the
    world as it finds it: no request is sent, nothing is printed, and cache
    and file stay as they are.  This holds for the very next lookup and
    for one made after any run of other lookups, with any fuel. *)
Theorem memoisation_idempotence
    (fuel fuel' : nat) (d o d' o' : string) (w w1 : world) (kst_info : KstInfo)
    (calls : list (nat * string * string)) :
  get_kst_information server fuel d o w = (Ret kst_info, w1) ->
  same_up_to_whitespace d' d ->
  same_up_to_whitespace o' o ->
  get_kst_information server fuel' d' o' w1 = (Ret kst_info, w1)
  /\ get_kst_information server fuel' d' o' (run_lookups server calls w1)
     = (Ret kst_info, run_lookups server calls w1).
Proof.
  unfold same_up_to_whitespace. intros H Hd Ho.
  apply lookup_returned_is_cached in H.
  split; apply lookup_hit; rewrite Hd, Ho; [exact H|].
  now apply run_lookups_keep_entries.
Qed.

(** C10. When a lookup misses the cache and the first record fetched has a
    [product-area] whose text is neither "sgd" nor "officielepublicaties",
    the lookup raises [UnboundLocalError] for [creator]; cache and cache
    file are as before the lookup. *)
Theorem unknown_product_area_raises
    (fuel : nat) (d o : string) (w w1 : world)
    (record product_area : Element) (rest : list Element) :
  cache_entry (kamerstuk_information_cache w)
    (PyStr.remove_spaces d) (PyStr.remove_spaces o) = None ->
  koop_sru_api_request_all server fuel
    (kst_query (PyStr.remove_spaces d) (PyStr.remove_spaces o)) w
    = (Ret (record :: rest), w1) ->
  ET.find_descendant record (qname ns_c "product-area") = Some product_area ->
  equals_str (text product_area) "sgd" = false ->
  equals_str (text product_area) "officielepublicaties" = false ->
  get_kst_information server fuel d o w = (Raise (UnboundLocalError "creator"), w1)
  /\ kamerstuk_information_cache w1 = kamerstuk_information_cache w
  /\ cache_file w1 = cache_file w.
Proof.
  intros Hmiss Hfetch Hpa Hsgd Hop.
  destruct (network_only_request_all _ _ _ _ _ _ Hfetch) as (Hc & Hf & _).
  split; [|now split].
  unfold get_kst_information, cache_entry in *. cbv zeta. rewrite Hmiss.
  unfold bind at 1. rewrite Hfetch.
  unfold bind at 1. cbn [ret].
  unfold bind at 1. unfold find_text at 1. rewrite Hpa. cbn [ret].
  rewrite Hsgd, Hop. reflexivity.
Qed.

End CacheProperties.

Lemma memoisation_idempotence_witness :
  get_kst_information sample_server 3 "3455 0" " 4"
    (snd (get_kst_information sample_server 0 " 34 550" "4 " (initial_world FileAbsent)))
  = (Ret sample_info,
     snd (get_kst_information sample_server 0 " 34 550" "4 " (initial_world FileAbsent))).
Proof.
  refine (proj1 (memoisation_idempotence sample_server 0 3 " 34 550" "4 " "3455 0" " 4"
                   (initial_world FileAbsent) _ sample_info [] _ _ _));
    reflexivity.
Defined.

Lemma unknown_product_area_raises_witness :
  fst (get_kst_information foreign_server 0 "34550" "4" (initial_world FileNotJson))
    = Raise (UnboundLocalError "creator")
  /\ kamerstuk_information_cache
       (snd (get_kst_information foreign_server 0 "34550" "4" (initial_world FileNotJson)))
     = ∅
  /\ cache_file
       (snd (get_kst_information foreign_server 0 "34550" "4" (initial_world FileNotJson)))
     = FileNotJson.
Proof.
  destruct (unknown_product_area_raises foreign_server 0 "34550" "4"
              (initial_world FileNotJson)
              (snd (koop_sru_api_request_all foreign_server 0
                      (kst_query "34550" "4") (initial_world FileNotJson)))
              foreign_record
              (leaf (qname ns_c "product-area") "lokalebekendmakingen") [])
    as (Hr & Hc & Hf); try reflexivity.
  rewrite Hr. cbn [fst snd]. split; [reflexivity|]. split; assumption.
Defined.

(** ** The document types *)

(** C6, against the fourteen categories of the specification: the title
    "Memorie van antwoord" is classified MEMORIE_VAN_ANTWOORD, which is none
    of the fourteen. *)
Lemma memorie_van_antwoord_not_listed :
  c_type (get_kamerstuktype_from_title "Memorie van antwoord"
            (mkElement "record" [] None []) false) = MEMORIE_VAN_ANTWOORD
  /\ ~ In (c_type (get_kamerstuktype_from_title "Memorie van antwoord"
                     (mkElement "record" [] None []) false))
          spec_document_types.
Proof.
  split; [reflexivity|].
  change (~ In MEMORIE_VAN_ANTWOORD spec_document_types).
  cbv. intuition discriminate.
Qed.

(** C6, amended.  [KamerstukType] has fifteen members, the fourteen of the
    specification and MEMORIE_VAN_ANTWOORD, each listed once.  Every value
    the classifier returns is one of them, a tail pass that matches no rule
    returns ONBEKEND, and the type stored in a Kamerstuk Info that a lookup
    returns is the [value] of one of them, as is every type in the cache
    afterwards, when this held of the cache before (it holds of the empty
    cache a process starts with). *)
Theorem closed_enumeration
    (server : list request -> request -> transport) (fuel : nat) (d o : string)
    (w w' : world) (kst_info : KstInfo) :
  types_of_members (kamerstuk_information_cache w) ->
  get_kst_information server fuel d o w = (Ret kst_info, w') ->
  (exists ty, In ty KamerstukType_members /\ kamerstuktype kst_info = value ty)
  /\ types_of_members (kamerstuk_information_cache w')
  /\ types_of_members ∅
  /\ (forall title record is_tail,
        In (c_type (get_kamerstuktype_from_title title record is_tail))
           KamerstukType_members)
  /\ (forall title record,
        first_match rules (normalise title) (opgegeven_kamerstuktype record) = None ->
        c_type (get_kamerstuktype_from_title title record true) = ONBEKEND)
  /\ NoDup KamerstukType_members
  /\ length KamerstukType_members = 15%nat
  /\ (forall ty, In ty KamerstukType_members
                 <-> In ty spec_document_types \/ ty = MEMORIE_VAN_ANTWOORD).
Proof.
  intros Hok H.
  assert (Hboth :
            (exists ty, In ty KamerstukType_members /\ kamerstuktype kst_info = value ty)
            /\ types_of_members (kamerstuk_information_cache w')).
  { destruct (cache_entry (kamerstuk_information_cache w)
                (PyStr.remove_spaces d) (PyStr.remove_spaces o)) as [j|] eqn:Hc.
    - rewrite (lookup_hit server fuel d o w j Hc) in H. injection H as <- <-.
      split; [exact (Hok _ _ _ Hc)|exact Hok].
    - destruct (lookup_miss server fuel d o w _ w' Hc H)
        as (_ & (vj & km & ty & dt & dst & Hi) & Hcache & _).
      assert (Hinfo : exists ty, In ty KamerstukType_members
                                 /\ kamerstuktype kst_info = value ty).
      { exists ty. split; [apply KamerstukType_members_complete|]. now rewrite Hi. }
      split; [exact Hinfo|].
      intros d0 o0 i Hin. rewrite Hcache, cache_entry_store in Hin.
      destruct (decide _); [now injection Hin as <-|exact (Hok _ _ _ Hin)]. }
  destruct Hboth as [Hinfo Hafter].
  split; [exact Hinfo|]. split; [exact Hafter|].
  split; [intros d0 o0 i Hin; discriminate Hin|].
  split; [intros; apply KamerstukType_members_complete|].
  split; [intros title record Hnone; now rewrite tail_pass, Hnone|].
  split; [apply (bool_decide_unpack _); vm_compute; exact I|].
  split; [reflexivity|].
  intros ty. split; [|intros _; apply KamerstukType_members_complete].
  intros _. destruct ty; cbv; tauto.
Qed.

Lemma closed_enumeration_witness :
  kamerstuktype sample_info = value MOTIE
  /\ types_of_members {[ "34550" := {[ "4" := sample_info ]} ]}.
Proof.
  destruct (closed_enumeration sample_server 0 " 34 550" "4 " (initial_world FileAbsent)
              (snd (get_kst_information sample_server 0 " 34 550" "4 "
                      (initial_world FileAbsent)))
              sample_info)
    as (_ & Hafter & _).
  - intros d0 o0 i Hin. discriminate Hin.
  - reflexivity.
  - split; [reflexivity|exact Hafter].
Defined.

(** ** Start of the process *)

(** Whatever the cache file holds, the module's cache is empty after the
    import: the loader binds what it read to a local name. *)
Lemma startup_cache_empty (file : file_state) :
  kamerstuk_information_cache (snd (startup file)) = ∅
  /\ cache_file (snd (startup file)) = file
  /\ requests_sent (snd (startup file)) = [].
Proof. destruct file; repeat split. Qed.

(** C4, on the code: the cache file holds the entry of dossier 34550,
    number 4, and the import succeeds, yet the cache is empty afterwards
    and a lookup of that pair sends a request, whatever the endpoint and
    the fuel. *)
Theorem warm_start_entry_not_loaded
    (server : list request -> request -> transport) (fuel : nat) :
  (exists doc, sample_file = FileJson doc
               /\ json_entry doc "34550" "4" = Some (json_of_info sample_info))
  /\ startup sample_file = (Ret (), initial_world sample_file)
  /\ load_local (initial_world sample_file)
     = (Ret (json_of_cache {[ "34550" := {[ "4" := sample_info ]} ]}),
        initial_world sample_file)
  /\ cache_entry (kamerstuk_information_cache (snd (startup sample_file))) "34550" "4"
     = None
  /\ exists more,
       requests_sent (snd (get_kst_information server fuel "34550" "4"
                             (snd (startup sample_file))))
       = mkRequest (kst_query "34550" "4") 0 100 :: more.
Proof.
  split; [eexists; split; [reflexivity|vm_compute; reflexivity]|].
  split; [reflexivity|]. split; [reflexivity|]. split; [reflexivity|].
  destruct (get_kst_information server fuel "34550" "4" (snd (startup sample_file)))
    as [r w'] eqn:E.
  assert (Hmiss : kamerstuk_information_cache (snd (startup sample_file))
                    !! PyStr.remove_spaces "34550" ≫= (.!! PyStr.remove_spaces "4") = None)
    by reflexivity.
  destruct (lookup_miss server fuel "34550" "4" _ r w' Hmiss E) as [[more Hm] _].
  exists more. exact Hm.
Qed.

(** C5, against the claim: with no cache file the import raises
    [FileNotFoundError]; no empty cache is put in its place by a handler and
    the process does not continue. *)
Lemma startup_absent_file_fails :
  startup FileAbsent = (Raise FileNotFoundError, initial_world FileAbsent).
Proof. reflexivity. Qed.

(** C5, amended.  When the cache file can be opened and read and
    [json.load] rejects its content, the import reports the failure on
    standard output and returns with an empty cache; the same holds, without
    the report, when the content is accepted.  A file that is absent or
    cannot be decoded makes the import raise. *)
Theorem startup_recovers_from_invalid_json :
  startup FileNotJson
  = (Ret (),
     mkWorld ∅ FileNotJson []
       ["FATAL ERROR LOADING KAMERSTUK CACHE! Using empty cache instead."])
  /\ (forall file : file_state,
        fst (startup file) = Ret ()
        <-> file = FileNotJson \/ exists doc, file = FileJson doc)
  /\ (forall file : file_state,
        kamerstuk_information_cache (snd (startup file)) = ∅)
  /\ fst (startup FileAbsent) = Raise FileNotFoundError
  /\ fst (startup FileUndecodable) = Raise UnicodeDecodeError.
Proof.
  split; [reflexivity|].
  split; [|split; [intros file; apply startup_cache_empty|split; reflexivity]].
  intros file. split.
  - destruct file; cbn; intros H; try discriminate; eauto.
  - intros [->|[doc ->]]; reflexivity.
Qed.

(** ** The paginated fetch *)

Section FetchProperties.

Variable server : list request -> request -> transport.
Variable query : string.

Lemma after_requests_nil w : after_requests w [] = w.
Proof. destruct w. unfold after_requests. cbn. now rewrite app_nil_r. Qed.

Lemma after_requests_app w l1 l2 :
  after_requests (after_requests w l1) l2 = after_requests w (l1 ++ l2).
Proof. unfold after_requests. cbn. now rewrite app_assoc. Qed.

(** A request that is answered with status 200 and well-formed XML. *)
Lemma koop_sru_api_request_ok start_record xml w :
  server (requests_sent w) (mkRequest query start_record 100) = Response 200 (Some xml) ->
  koop_sru_api_request server query start_record 100 w
  = (Ret xml, after_requests w [mkRequest query start_record 100]).
Proof. intros H. unfold koop_sru_api_request. now rewrite H. Qed.

(** The loop stops, without a request, once enough records are in. *)
Lemma fetch_more_done fuel start_record n records w :
  n <= Z.of_nat (length records) ->
  fetch_more server fuel query start_record 100 n records w = (Ret records, w).
Proof.
  intros H. destruct fuel; cbn [fetch_more];
    destruct (Z.ltb_spec (Z.of_nat (length records)) n); (lia || reflexivity).
Qed.

(** The loop returns only with at least [n] records. *)
Lemma fetch_more_returns fuel start_record n records w result w' :
  fetch_more server fuel query start_record 100 n records w = (Ret result, w') ->
  n <= Z.of_nat (length result).
Proof.
  revert start_record records w.
  induction fuel as [|fuel IH]; intros start_record records w H; cbn [fetch_more] in H;
    destruct (Z.ltb_spec (Z.of_nat (length records)) n) as [Hlt|Hge];
    try (injection H as <- <-; exact Hge); [discriminate H|].
  unfold bind in H.
  destruct (koop_sru_api_request server query (start_record + 100) 100 w)
    as [[xml|e|] w1]; [|discriminate H..].
  exact (IH _ _ _ H).
Qed.

Section Pages.

Variable N : Z.
Variable page : nat -> Element.

Hypothesis N_positive : 0 < N.
Hypothesis page_served : forall hist j, (j < pages_needed N)%nat ->
  server hist (mkRequest query (100 * Z.of_nat j) 100) = Response 200 (Some (page j)).
Hypothesis page_size : forall j, (j < pages_needed N)%nat ->
  Z.of_nat (length (sru_records (page j))) = Z.min 100 (N - 100 * Z.of_nat j).

Lemma pages_needed_bounds :
  100 * (Z.of_nat (pages_needed N) - 1) < N <= 100 * Z.of_nat (pages_needed N).
Proof.
  unfold pages_needed. rewrite Z2Nat.id by (apply Z.div_pos; lia).
  pose proof (Z.div_mod (N + 99) 100 ltac:(lia)).
  pose proof (Z.mod_pos_bound (N + 99) 100 ltac:(lia)). lia.
Qed.

(** The loop, entered after page [j - 1] with the records of the pages so
    far, fetches the [n] pages that remain and returns. *)
Lemma fetch_more_pages n : forall j fuel start_record records w,
  (1 <= j)%nat -> (j + n = pages_needed N)%nat -> (n <= fuel)%nat ->
  start_record + 100 = 100 * Z.of_nat j ->
  Z.of_nat (length records) = Z.min (100 * Z.of_nat j) N ->
  fetch_more server fuel query start_record 100 N records w
  = (Ret (records ++ page_records page j n),
     after_requests w (page_requests query j n))
  /\ Z.of_nat (length (records ++ page_records page j n)) = N.
Proof.
  pose proof pages_needed_bounds as Hm.
  induction n as [|n IH]; intros j fuel start_record records w Hj Hjn Hfuel Hstart Hlen.
  - unfold page_records, page_requests. cbn [seq flat_map fmap list_fmap].
    rewrite app_nil_r, after_requests_nil.
    assert (Hall : Z.of_nat (length records) = N) by lia.
    split; [apply fetch_more_done; lia|exact Hall].
  - destruct fuel as [|fuel]; [lia|]. cbn [fetch_more].
    destruct (Z.ltb_spec (Z.of_nat (length records)) N) as [Hlt|Hge]; [|lia].
    cbv zeta. rewrite Hstart. unfold bind.
    rewrite (koop_sru_api_request_ok _ (page j)) by (apply page_served; lia).
    destruct (IH (S j) fuel (100 * Z.of_nat j) (records ++ sru_records (page j))
                (after_requests w [mkRequest query (100 * Z.of_nat j) 100]))
      as [Hrun Hcount]; try lia.
    { rewrite length_app, Nat2Z.inj_add, page_size by lia. lia. }
    rewrite Hrun, after_requests_app.
    unfold page_records, page_requests in *. cbn [seq flat_map fmap list_fmap].
    rewrite <- app_assoc in Hcount |- *. now split.
Qed.

End Pages.

End FetchProperties.

(** C2. Let the first response declare [N] records, [N] above the page size
    of 100, and let the request at offset 100 j be answered with page [j],
    which holds min (100, N - 100 j) records.  Then, given fuel for the
    iterations, [koop_sru_api_request_all] sends exactly the requests at
    offsets 0, 100, 200, ..., one per page and N / 100 rounded up of them in
    all, and returns the records of the pages in the order of their arrival:
    N records. *)
Theorem paginated_fetch_complete
    (server : list request -> request -> transport) (query : string)
    (N : Z) (page : nat -> Element) (fuel : nat) (w : world) :
  100 < N ->
  (forall hist j, (j < pages_needed N)%nat ->
     server hist (mkRequest query (100 * Z.of_nat j) 100) = Response 200 (Some (page j))) ->
  (forall j, (j < pages_needed N)%nat ->
     Z.of_nat (length (sru_records (page j))) = Z.min 100 (N - 100 * Z.of_nat j)) ->
  sru_number_of_records (page 0%nat) = ret N ->
  (pages_needed N <= S fuel)%nat ->
  koop_sru_api_request_all server fuel query w
  = (Ret (page_records page 0 (pages_needed N)),
     after_requests w (page_requests query 0 (pages_needed N)))
  /\ Z.of_nat (length (page_records page 0 (pages_needed N))) = N
  /\ length (page_requests query 0 (pages_needed N)) = pages_needed N
  /\ Z.of_nat (pages_needed N) = (N + 99) / 100.
Proof.
  intros HN Hserved Hsize Htotal Hfuel.
  pose proof (pages_needed_bounds N ltac:(lia)) as Hm.
  destruct (pages_needed N) as [|m] eqn:Em; [lia|].
  assert (Hfirst : server (requests_sent w) (mkRequest query 0 100)
                   = Response 200 (Some (page 0%nat)))
    by (apply (Hserved _ 0%nat); lia).
  destruct (fetch_more_pages server query N page ltac:(lia)
              ltac:(rewrite Em; exact Hserved) ltac:(rewrite Em; exact Hsize)
              m 1%nat fuel 0 (sru_records (page 0%nat))
              (after_requests w [mkRequest query 0 100]))
    as [Hrun Hcount]; try lia.
  { rewrite (Hsize 0%nat) by lia. lia. }
  split; [|split; [exact Hcount|split]].
  - unfold koop_sru_api_request_all. cbv zeta. unfold bind at 1.
    rewrite (koop_sru_api_request_ok _ _ _ _ _ Hfirst).
    unfold bind. rewrite Htotal. cbn [ret].
    rewrite Hrun, after_requests_app. reflexivity.
  - unfold page_requests. now rewrite length_fmap, length_seq.
  - unfold pages_needed in Em. rewrite <- Em.
    rewrite Z2Nat.id by (apply Z.div_pos; lia). reflexivity.
Qed.

Lemma paginated_fetch_complete_witness :
  koop_sru_api_request_all paging_server 2 "dt.type=Kamerstuk" (initial_world FileAbsent)
  = (Ret (page_records sample_page 0 3),
     after_requests (initial_world FileAbsent)
       [mkRequest "dt.type=Kamerstuk" 0 100; mkRequest "dt.type=Kamerstuk" 100 100;
        mkRequest "dt.type=Kamerstuk" 200 100])
  /\ Z.of_nat (length (page_records sample_page 0 3)) = 250.
Proof.
  destruct (paginated_fetch_complete paging_server "dt.type=Kamerstuk" 250 sample_page 2
              (initial_world FileAbsent))
    as (Hrun & Hcount & _).
  - lia.
  - intros hist j Hj. destruct j as [|[|[|j]]]; try reflexivity.
    vm_compute in Hj. lia.
  - intros j Hj. destruct j as [|[|[|j]]]; try reflexivity.
    vm_compute in Hj. lia.
  - reflexivity.
  - vm_compute. lia.
  - split; [exact Hrun|exact Hcount].
Defined.

Section Stalling.

Variable server : list request -> request -> transport.
Variable query : string.

(** With nothing but empty pages to come and records still missing, the
    loop uses up any fuel, one request for each unit of it. *)
Lemma fetch_more_stalls n :
  (forall hist k, 0 < k ->
     exists xml, server hist (mkRequest query k 100) = Response 200 (Some xml)
                 /\ sru_records xml = []) ->
  forall fuel start_record records w,
    0 <= start_record ->
    Z.of_nat (length records) < n ->
    fst (fetch_more server fuel query start_record 100 n records w) = OutOfFuel
    /\ length (requests_sent
                 (snd (fetch_more server fuel query start_record 100 n records w)))
       = (length (requests_sent w) + fuel)%nat.
Proof.
  intros Hempty.
  induction fuel as [|fuel IH]; intros start_record records w Hstart Hlt;
    cbn [fetch_more]; destruct (Z.ltb_spec (Z.of_nat (length records)) n); try lia.
  - cbn. split; [reflexivity|lia].
  - cbv zeta. unfold bind.
    destruct (Hempty (requests_sent w) (start_record + 100)) as (xml & Hxml & Hnone);
      [lia|].
    rewrite (koop_sru_api_request_ok _ _ _ _ _ Hxml), Hnone, app_nil_r.
    destruct (IH (start_record + 100) records
                (after_requests w [mkRequest query (start_record + 100) 100]))
      as [Hout Hsent]; try lia.
    split; [exact Hout|]. rewrite Hsent. cbn. rewrite length_app. cbn. lia.
Qed.

End Stalling.

(** C9. The total that decides the loop is the one the first response
    declares.  The fetch returns only when the records collected number at
    least that total, and the loop ends at once, with no further request,
    whenever they do.  If the first page holds fewer records than it
    declares and every later request is answered with a page without
    records (whatever total that page declares), the fetch never returns:
    it uses up any fuel, sending one more request for each iteration. *)
Theorem pagination_termination
    (server : list request -> request -> transport) (query : string)
    (w : world) (xml0 : Element) (N : Z) :
  server (requests_sent w) (mkRequest query 0 100) = Response 200 (Some xml0) ->
  sru_number_of_records xml0 = ret N ->
  (forall fuel records w',
     koop_sru_api_request_all server fuel query w = (Ret records, w') ->
     N <= Z.of_nat (length records))
  /\ (forall fuel start_record records w1,
        N <= Z.of_nat (length records) ->
        fetch_more server fuel query start_record 100 N records w1 = (Ret records, w1))
  /\ ((forall hist k, 0 < k ->
         exists xml, server hist (mkRequest query k 100) = Response 200 (Some xml)
                     /\ sru_records xml = []) ->
      Z.of_nat (length (sru_records xml0)) < N ->
      forall fuel,
        fst (koop_sru_api_request_all server fuel query w) = OutOfFuel
        /\ length (requests_sent (snd (koop_sru_api_request_all server fuel query w)))
           = (length (requests_sent w) + 1 + fuel)%nat).
Proof.
  intros Hfirst Htotal.
  assert (Hrun : forall fuel,
             koop_sru_api_request_all server fuel query w
             = fetch_more server fuel query 0 100 N (sru_records xml0)
                 (after_requests w [mkRequest query 0 100])).
  { intros fuel. unfold koop_sru_api_request_all. cbv zeta. unfold bind at 1.
    rewrite (koop_sru_api_request_ok _ _ _ _ _ Hfirst).
    unfold bind. now rewrite Htotal. }
  split; [|split].
  - intros fuel records w' H. rewrite Hrun in H.
    exact (fetch_more_returns _ _ _ _ _ _ _ _ _ H).
  - intros. now apply fetch_more_done.
  - intros Hempty Hfew fuel. rewrite Hrun.
    destruct (fetch_more_stalls server query N Hempty fuel 0 (sru_records xml0)
                (after_requests w [mkRequest query 0 100]))
      as [Hout Hsent]; try lia.
    split; [exact Hout|]. rewrite Hsent. cbn. rewrite length_app. cbn. lia.
Qed.

Lemma pagination_termination_witness :
  fst (koop_sru_api_request_all stalling_server 7 "dt.type=Kamerstuk"
         (initial_world FileAbsent)) = OutOfFuel
  /\ length (requests_sent
               (snd (koop_sru_api_request_all stalling_server 7 "dt.type=Kamerstuk"
                       (initial_world FileAbsent)))) = 8%nat.
Proof.
  destruct (pagination_termination stalling_server "dt.type=Kamerstuk"
              (initial_world FileAbsent)
              (sru_response "5" [sample_record; sample_record]) 5)
    as (_ & _ & Hnever).
  - reflexivity.
  - reflexivity.
  - apply (Hnever) with (fuel := 7%nat).
    + intros hist k Hk. exists (sru_response "0" []).
      split; [|reflexivity].
      unfold stalling_server. cbn [startRecord].
      destruct (Z.eqb_spec k 0); [lia|reflexivity].
    + vm_compute. reflexivity.
Defined.

(** * Further properties *)

(** ** Strings *)

Lemma append_empty_r (s : string) : s +:+ EmptyString = s.
Proof.
  induction s as [|c s IH]; [reflexivity|].
  change (String c (s +:+ EmptyString) = String c s). now rewrite IH.
Qed.

Lemma append_assoc (a b c : string) : (a +:+ b) +:+ c = a +:+ (b +:+ c).
Proof.
  induction a as [|x a IH]; [reflexivity|].
  change (String x ((a +:+ b) +:+ c) = String x (a +:+ (b +:+ c))). now rewrite IH.
Qed.

Lemma rev_onto_rev_onto (s a b : string) :
  PyStr.rev_onto (PyStr.rev_onto s a) b = PyStr.rev_onto a (s +:+ b).
Proof.
  revert a b. induction s as [|c s IH]; intros a b; [reflexivity|].
  cbn [PyStr.rev_onto]. rewrite IH. reflexivity.
Qed.

Lemma rev_involutive (s : string) : PyStr.rev (PyStr.rev s) = s.
Proof.
  unfold PyStr.rev. rewrite rev_onto_rev_onto. apply append_empty_r.
Qed.

Lemma startswith_empty (s : string) : PyStr.startswith s EmptyString = true.
Proof. now destruct s. Qed.

(** A string without the separator is one piece. *)
Lemma split_go_no_separator (sep : string) : forall s cur,
  PyStr.contains sep s = false ->
  PyStr.split_go sep 0 cur s = [PyStr.rev (PyStr.rev_onto s cur)].
Proof.
  induction s as [|c s IH]; intros cur H; [reflexivity|].
  cbn [PyStr.contains] in H. apply orb_false_elim in H as [Hhere Hlater].
  cbn [PyStr.split_go PyStr.rev_onto]. rewrite Hhere. now apply IH.
Qed.

(** The first piece of a string ends where "; " first occurs. *)
Lemma split_go_first_separator : forall p cur rest,
  PyStr.contains "; " p = false ->
  PyStr.split_go "; " 0 cur (p +:+ "; " +:+ rest)
  = PyStr.rev (PyStr.rev_onto p cur) :: PyStr.split_go "; " 0 EmptyString rest.
Proof.
  induction p as [|c p IH]; intros cur rest H; [destruct rest; reflexivity|].
  cbn [PyStr.contains] in H. apply orb_false_elim in H as [Hhere Hlater].
  change (String c p +:+ "; " +:+ rest) with (String c (p +:+ "; " +:+ rest)).
  cbn [PyStr.split_go PyStr.rev_onto].
  assert (Hno : PyStr.startswith (String c (p +:+ "; " +:+ rest)) "; " = false).
  { cbn [PyStr.startswith] in Hhere |- *.
    destruct (Ascii.eqb c ";"); [|reflexivity]. cbn [andb] in Hhere |- *.
    destruct p as [|c' p]; [reflexivity|].
    change (String c' p +:+ "; " +:+ rest) with (String c' (p +:+ "; " +:+ rest)).
    cbn [PyStr.startswith] in Hhere |- *.
    now rewrite startswith_empty in Hhere |- *. }
  rewrite Hno. now apply IH.
Qed.

(** ** The classifier, further *)

(** When no [if] of the cascade fires, each of its conditions is false. *)
Ltac cascade_none H :=
  unfold rules, rules_before_lax, lax_rule in H;
  cbn [app first_match] in H;
  repeat match type of H with
         | (if ?c then _ else _) = None =>
             let E := fresh "Hcond" in
             destruct c eqn:E; [discriminate H|]
         end;
  repeat match goal with
         | E : (_ || _) = false |- _ => apply orb_false_elim in E; destruct E
         end.

(** A cascade that no title condition and no declared type satisfies is
    not satisfied by the empty title either. *)
Lemma unmatched_empty_title title hint :
  first_match rules title hint = None ->
  first_match rules EmptyString hint = None.
Proof.
  intros H. cascade_none H.
  unfold rules, rules_before_lax, lax_rule. cbn [app first_match].
  repeat match goal with
         | E : equals_str hint _ = false |- _ => rewrite E; clear E
         end.
  reflexivity.
Qed.

Lemma startswith_append (s p : string) :
  PyStr.startswith s p = true -> exists r, s = p +:+ r.
Proof.
  revert s. induction p as [|b p IH]; intros s H; [now exists s|].
  destruct s as [|a s]; [discriminate H|].
  cbn [PyStr.startswith] in H. apply andb_prop in H as [Hab Hrest].
  apply Ascii.eqb_eq in Hab as ->. destruct (IH _ Hrest) as [r ->]. now exists r.
Qed.

(** X1. The tail that the fallback pass classifies is the second of the
    pieces that "; " separates: for pieces [p] and [q] free of "; ", the
    tail of "p; q" is [q], the tail of "p; q; r" is [q] as well, whatever
    [r] is, and a title without "; " has the empty tail. *)
Theorem tail_is_second_segment (p q : string) :
  PyStr.contains "; " p = false ->
  PyStr.contains "; " q = false ->
  title_tail_of p = EmptyString
  /\ title_tail_of (p +:+ "; " +:+ q) = q
  /\ forall r, title_tail_of (p +:+ "; " +:+ q +:+ "; " +:+ r) = q.
Proof.
  intros Hp Hq. unfold title_tail_of, PyStr.split. repeat split.
  - now rewrite split_go_no_separator.
  - rewrite split_go_first_separator, split_go_no_separator by assumption.
    cbn. apply rev_involutive.
  - intros r. rewrite !split_go_first_separator by assumption.
    cbn. apply rev_involutive.
Qed.

Lemma tail_is_second_segment_witness :
  title_tail_of "regeling van werkzaamheden; motie van het lid x; bijlage"
  = "motie van het lid x".
Proof.
  exact (proj2 (proj2 (tail_is_second_segment "regeling van werkzaamheden"
                         "motie van het lid x" eq_refl eq_refl)) "bijlage").
Defined.

(** X2. A title that satisfies no rule and whose normalised form holds no
    "; " is classified ONBEKEND: the fallback pass runs once, on the empty
    tail, and finds nothing either. *)
Theorem unmatched_title_without_separator (title : string) (record : Element) :
  first_match rules (normalise title) (opgegeven_kamerstuktype record) = None ->
  PyStr.contains "; " (normalise title) = false ->
  get_kamerstuktype_from_title title record false
  = mkClassified ONBEKEND
      [ msg_cant_determine (normalise title);
        msg_cant_determine EmptyString;
        msg_found ONBEKEND EmptyString ]
      [ (title, false); (EmptyString, true) ].
Proof.
  intros Hnone Hsep.
  assert (Htail : title_tail_of (normalise title) = EmptyString).
  { unfold title_tail_of, PyStr.split. now rewrite split_go_no_separator. }
  rewrite get_kamerstuktype_from_title_body, Hnone. cbv zeta.
  rewrite Htail, tail_pass.
  change (normalise EmptyString) with EmptyString.
  now rewrite (unmatched_empty_title _ _ Hnone).
Qed.

Lemma unmatched_title_without_separator_witness :
  c_type (get_kamerstuktype_from_title "Lijst van vragen en antwoorden"
            (mkElement "record" [] None []) false) = ONBEKEND.
Proof.
  rewrite (unmatched_title_without_separator "Lijst van vragen en antwoorden"
             (mkElement "record" [] None []) eq_refl eq_refl).
  reflexivity.
Defined.

(** X3. When the record declares one of the eight types the cascade knows,
    the title matters in two ways only: a title that starts with "brief" is
    a BRIEF, and a title that starts with "koninklijke boodschap" is a
    KONINKLIJKE_BOODSCHAP unless the record declares a Brief, an
    Amendement, a Motie or a Voorstel van wet.  In every other case the member returned is the
    declared one; no tail pass is made. *)
Theorem declared_type_priority
    (title : string) (record : Element) (is_tail : bool) (declared : KamerstukType) :
  In declared declarable_types ->
  opgegeven_kamerstuktype record = Some (value declared) ->
  get_kamerstuktype_from_title title record is_tail
  = mkClassified
      (if PyStr.startswith (normalise title) "brief" then BRIEF
       else if bool_decide (declared ∈ [BRIEF; AMENDEMENT; MOTIE; WETSVOORSTEL])
            then declared
       else if PyStr.startswith (normalise title) "koninklijke boodschap"
            then KONINKLIJKE_BOODSCHAP
       else declared)
      [] [(title, is_tail)].
Proof.
  intros Hin Hhint.
  rewrite get_kamerstuktype_from_title_body, Hhint.
  unfold rules, rules_before_lax. cbn [app first_match].
  destruct (PyStr.startswith (normalise title) "brief");
    destruct (PyStr.startswith (normalise title) "koninklijke boodschap");
    cbn in Hin; intuition subst; reflexivity.
Qed.

Lemma declared_type_priority_witness :
  c_type (get_kamerstuktype_from_title "Koninklijke boodschap bij het jaarverslag"
            (declaring_record "Jaarverslag") false) = KONINKLIJKE_BOODSCHAP
  /\ c_type (get_kamerstuktype_from_title "Koninklijke boodschap bij de motie"
               (declaring_record "Motie") false) = MOTIE.
Proof.
  split.
  - rewrite (declared_type_priority _ (declaring_record "Jaarverslag") false JAARVERSLAG);
      [reflexivity|cbn; tauto|reflexivity].
  - rewrite (declared_type_priority _ (declaring_record "Motie") false MOTIE);
      [reflexivity|cbn; tauto|reflexivity].
Defined.

(** X4. A title whose normalised form ends with "verslag" is settled by the
    rules up to the ends-with test for reports: the member returned is
    never NOTA_NA_VERSLAG (nor any member of a later rule), and nothing is
    printed.  In particular a title that starts with "nota naar aanleiding
    van het" and ends with "verslag", on a record that declares none of the
    eight known types, is classified VERSLAG. *)
Theorem verslag_ending_shadows_later_rules
    (title : string) (record : Element) (is_tail : bool) :
  PyStr.endswith (normalise title) "verslag" = true ->
  In (c_type (get_kamerstuktype_from_title title record is_tail))
     [ BRIEF; AMENDEMENT; MOTIE; WETSVOORSTEL; KONINKLIJKE_BOODSCHAP;
       MEMORIE_VAN_TOELICHTING; JAARVERSLAG; VERSLAG; ADVIES_RVS ]
  /\ c_printed (get_kamerstuktype_from_title title record is_tail) = []
  /\ (existsb (fun ty => equals_str (opgegeven_kamerstuktype record) (value ty))
        declarable_types = false ->
      PyStr.startswith (normalise title) "nota naar aanleiding van het" = true ->
      c_type (get_kamerstuktype_from_title title record is_tail) = VERSLAG).
Proof.
  intros Hend.
  rewrite get_kamerstuktype_from_title_body.
  unfold rules, rules_before_lax. cbn [app first_match].
  rewrite Hend, orb_true_r. cbn [orb].
  split; [|split].
  - repeat match goal with
           | |- context [if ?c then Some _ else _] =>
               lazymatch c with
               | true => fail
               | _ => destruct c; [cbn; tauto|]
               end
           end.
    cbn. tauto.
  - repeat match goal with
           | |- context [if ?c then Some _ else _] =>
               lazymatch c with
               | true => fail
               | _ => destruct c; [reflexivity|]
               end
           end.
    reflexivity.
  - intros Hhint Hstart.
    cbn [existsb declarable_types value] in Hhint.
    repeat match goal with
           | E : (_ || _) = false |- _ => apply orb_false_elim in E; destruct E
           end.
    repeat match goal with
           | E : equals_str _ _ = false |- _ => rewrite E; clear E
           end.
    apply startswith_append in Hstart as [r Hr].
    assert (Hst : forall q, PyStr.startswith (normalise title) q
                            = PyStr.startswith ("nota naar aanleiding van het" +:+ r) q)
      by (intros q; now rewrite Hr).
    unfold PyStr.endswith in Hend.
    apply startswith_append in Hend as [r' Hr'].
    assert (Hen : forall q, PyStr.endswith (normalise title) q
                            = PyStr.startswith (PyStr.rev "verslag" +:+ r') (PyStr.rev q))
      by (intros q; unfold PyStr.endswith; now rewrite Hr').
    rewrite !Hst, !Hen. reflexivity.
Qed.

Lemma verslag_ending_shadows_later_rules_witness :
  c_type (get_kamerstuktype_from_title "Nota naar aanleiding van het nader verslag"
            (mkElement "record" [] None []) false) = VERSLAG.
Proof.
  exact (proj2 (proj2 (verslag_ending_shadows_later_rules
                         "Nota naar aanleiding van het nader verslag"
                         (mkElement "record" [] None []) false eq_refl))
           eq_refl eq_refl).
Defined.

(** ** The lookup, further *)

Section LookupComposition.

Variable server : list request -> request -> transport.

(** What a lookup that missed returns is built from the fields of a
    record: the numbers asked for, the chamber of the creator, the member
    classified from the title. *)
Lemma lookup_miss_info fuel d o w kst_info w' :
  cache_entry (kamerstuk_information_cache w)
    (PyStr.remove_spaces d) (PyStr.remove_spaces o) = None ->
  get_kst_information server fuel d o w = (Ret kst_info, w') ->
  exists record dst title vj cr,
    kst_info = info_of_fields (PyStr.remove_spaces d) (PyStr.remove_spaces o)
                 record dst title vj cr
    /\ w' = after_store
              (after_requests w (drop (length (requests_sent w)) (requests_sent w')))
              (PyStr.remove_spaces d) (PyStr.remove_spaces o) kst_info
              (c_printed (get_kamerstuktype_from_title title record false)).
Proof.
  unfold cache_entry.
  intros Hmiss H. unfold get_kst_information in H. cbv zeta in H. rewrite Hmiss in H.
  unfold bind at 1 in H.
  destruct (koop_sru_api_request_all _ _ _ w) as [[records|e|] w1] eqn:E1;
    [|discriminate H..].
  destruct (network_only_request_all _ _ _ _ _ _ E1) as (Hc & Hf & Hs & more & Hm).
  unfold bind at 1 in H.
  destruct records as [|record rest]; [discriminate H|].
  cbn [ret] in H.
  unfold bind at 1 in H.
  destruct (find_text record ns_c "product-area" w1) as [[product_area|e|] w2] eqn:E2;
    rewrite (pure_find_text _ _ _ _ _ _ E2) in *; clear E2; [|discriminate H..].
  unfold bind at 1 in H.
  match type of H with
  | match ?c w1 with _ => _ end = _ =>
      assert (Hpure : pure c)
        by (destruct (equals_str product_area "sgd");
            [|destruct (equals_str product_area "officielepublicaties")];
            auto with pure);
      destruct (c w1) as [[bound|e|] w3] eqn:E3;
      rewrite (Hpure _ _ _ E3) in *; clear E3 Hpure
  end; [|discriminate H..].
  destruct bound as [[[[dst dt] vj] cr]|]; [|discriminate H].
  destruct dt as [title|]; [|discriminate H].
  unfold bind, print_all, cache_store, __save_kamerstuk_information_cache, ret in H.
  cbn [kamerstuk_information_cache cache_file requests_sent stdout] in H.
  destruct (writable (cache_file w1)); [|discriminate H].
  injection H as <- <-.
  exists record, dst, title, vj, cr. split; [reflexivity|].
  unfold after_store, after_requests.
  cbn [kamerstuk_information_cache cache_file requests_sent stdout].
  rewrite Hm, drop_app_length, Hc, Hs. reflexivity.
Qed.

End LookupComposition.



(** X6. When the endpoint answers the query with no record and a declared
    total of zero or less, the lookup raises [IndexError] after that one
    request, whatever the fuel; cache, file and output are untouched. *)
Theorem empty_result_raises_IndexError
    (server : list request -> request -> transport) (fuel : nat) (d o : string)
    (w : world) (xml : Element) (N : Z) :
  cache_entry (kamerstuk_information_cache w)
    (PyStr.remove_spaces d) (PyStr.remove_spaces o) = None ->
  server (requests_sent w)
    (mkRequest (kst_query (PyStr.remove_spaces d) (PyStr.remove_spaces o)) 0 100)
    = Response 200 (Some xml) ->
  sru_records xml = [] ->
  sru_number_of_records xml = ret N ->
  N <= 0 ->
  get_kst_information server fuel d o w
  = (Raise IndexError,
     after_requests w
       [mkRequest (kst_query (PyStr.remove_spaces d) (PyStr.remove_spaces o)) 0 100]).
Proof.
  intros Hmiss Hfirst Hnone Htotal HN.
  unfold get_kst_information, cache_entry in *. cbv zeta. rewrite Hmiss.
  unfold koop_sru_api_request_all. cbv zeta.
  unfold bind at 1. unfold bind at 1.
  rewrite (koop_sru_api_request_ok _ _ _ _ _ Hfirst).
  unfold bind at 1. rewrite Htotal. cbn [ret].
  rewrite fetch_more_done by (rewrite Hnone; cbn; lia).
  now rewrite Hnone.
Qed.

Lemma empty_result_raises_IndexError_witness :
  get_kst_information empty_server 2 "99999" "1" (initial_world FileNotJson)
  = (Raise IndexError,
     after_requests (initial_world FileNotJson)
       [mkRequest (kst_query "99999" "1") 0 100]).
Proof.
  apply (empty_result_raises_IndexError empty_server 2 "99999" "1"
           (initial_world FileNotJson) (sru_response "0" []) 0);
    (reflexivity || lia).
Defined.

(** ** The fetch, further *)

Section FetchShape.

Variable server : list request -> request -> transport.
Variable query : string.

Lemma koop_sru_api_request_returned start_record xml w w1 :
  koop_sru_api_request server query start_record 100 w = (Ret xml, w1) ->
  server (requests_sent w) (mkRequest query start_record 100) = Response 200 (Some xml).
Proof.
  unfold koop_sru_api_request. intros H.
  destruct (server _ _) as [|status_code body]; [discriminate H|].
  destruct (Z.eqb_spec status_code 200) as [->|]; [|discriminate H].
  destruct body; [|discriminate H]. cbn in H. now injection H as ->.
Qed.

Lemma page_requests_cons j m :
  page_requests query j (S m)
  = mkRequest query (100 * Z.of_nat j) 100 :: page_requests query (S j) m.
Proof. reflexivity. Qed.

(** The loop, entered after page [j - 1], asks for pages [j], [j + 1],
    ... one after the other and for nothing else; when it returns, every
    one of them was served, and their records follow those it started
    with. *)
Lemma fetch_more_shape n : forall fuel j start_record records w r w',
  start_record + 100 = 100 * Z.of_nat j ->
  fetch_more server fuel query start_record 100 n records w = (r, w') ->
  exists m, (m <= fuel)%nat
    /\ w' = after_requests w (page_requests query j m)
    /\ forall result, r = Ret result ->
         exists xmls, length xmls = m
           /\ result = records ++ flat_map sru_records xmls
           /\ forall i xml, xmls !! i = Some xml ->
                server (requests_sent w ++ page_requests query j i)
                  (mkRequest query (100 * Z.of_nat (j + i)) 100)
                = Response 200 (Some xml).
Proof.
  induction fuel as [|fuel IH]; intros j start_record records w r w' Hstart H;
    cbn [fetch_more] in H;
    destruct (Z.of_nat (length records) <? n).
  - injection H as <- <-. exists 0%nat.
    rewrite after_requests_nil. repeat split; [lia|discriminate].
  - injection H as <- <-. exists 0%nat.
    rewrite after_requests_nil. repeat split; [lia|].
    intros result [= <-]. exists []. cbn. rewrite app_nil_r. repeat split.
    intros i xml Hi. discriminate Hi.
  - cbv zeta in H. rewrite Hstart in H. unfold bind in H.
    destruct (koop_sru_api_request server query (100 * Z.of_nat j) 100 w)
      as [[xml|e|] w1] eqn:E;
      pose proof (koop_sru_api_request_sends _ _ _ _ _ _ _ E) as Hw1;
      fold (after_requests w [mkRequest query (100 * Z.of_nat j) 100]) in Hw1.
    + apply koop_sru_api_request_returned in E.
      destruct (IH (S j) (100 * Z.of_nat j) _ _ _ _ ltac:(lia) H)
        as (m & Hm & Hw' & Hret).
      exists (S m). split; [lia|]. split.
      { rewrite Hw', Hw1, after_requests_app. reflexivity. }
      intros result Hres. destruct (Hret _ Hres) as (xmls & Hlen & Hcat & Hserved).
      exists (xml :: xmls). split; [cbn; lia|]. split.
      { rewrite Hcat, <- app_assoc. reflexivity. }
      intros [|i] xml' Hi.
      * cbn in Hi. injection Hi as <-.
        unfold page_requests. cbn. rewrite app_nil_r, Nat.add_0_r. exact E.
      * cbn in Hi. specialize (Hserved i xml' Hi).
        rewrite Hw1 in Hserved. cbn [after_requests requests_sent] in Hserved.
        rewrite page_requests_cons.
        replace (j + S i)%nat with (S j + i)%nat by lia.
        rewrite <- app_assoc in Hserved. exact Hserved.
    + injection H as <- <-. exists 1%nat. split; [lia|]. split; [exact Hw1|discriminate].
    + injection H as <- <-. exists 1%nat. split; [lia|]. split; [exact Hw1|discriminate].
  - injection H as <- <-. exists 0%nat.
    rewrite after_requests_nil. repeat split; [lia|].
    intros result [= <-]. exists []. cbn. rewrite app_nil_r. repeat split.
    intros i xml Hi. discriminate Hi.
Qed.

End FetchShape.

(** X7. Whatever the endpoint does, [koop_sru_api_request_all] asks for
    pages at the offsets 0, 100, 200, ... in this order, each once, with the
    same query and a page size of 100, at most one more than the fuel
    allows iterations, and changes nothing else in the world.  When it
    returns, every request was answered with status 200 and well-formed
    XML, and the result is the records of the responses, response after
    response. *)
Theorem fetch_asks_pages_in_order
    (server : list request -> request -> transport) (fuel : nat) (query : string)
    (w w' : world) (r : res (list Element)) :
  koop_sru_api_request_all server fuel query w = (r, w') ->
  exists k, (1 <= k <= S fuel)%nat
    /\ w' = after_requests w (page_requests query 0 k)
    /\ forall records, r = Ret records ->
         exists xmls, length xmls = k
           /\ records = flat_map sru_records xmls
           /\ forall i xml, xmls !! i = Some xml ->
                server (requests_sent w ++ page_requests query 0 i)
                  (mkRequest query (100 * Z.of_nat i) 100)
                = Response 200 (Some xml).
Proof.
  unfold koop_sru_api_request_all. cbv zeta. intros H. unfold bind at 1 in H.
  destruct (koop_sru_api_request server query 0 100 w) as [[xml|e|] w1] eqn:E;
    pose proof (koop_sru_api_request_sends _ _ _ _ _ _ _ E) as Hw1;
    fold (after_requests w [mkRequest query 0 100]) in Hw1.
  2,3: injection H as <- <-; exists 1%nat; split; [lia|]; split; [exact Hw1|discriminate].
  apply koop_sru_api_request_returned in E.
  unfold bind in H.
  destruct (sru_number_of_records xml w1) as [[n|e|] w2] eqn:En;
    rewrite (pure_number_of_records _ _ _ _ En) in *.
  2,3: injection H as <- <-; exists 1%nat; split; [lia|]; split; [exact Hw1|discriminate].
  destruct (fetch_more_shape server query n fuel 1%nat 0 _ _ _ _ ltac:(lia) H)
    as (m & Hm & Hw' & Hret).
  exists (S m). split; [lia|]. split.
  { rewrite Hw', Hw1, after_requests_app. reflexivity. }
  intros records Hres. destruct (Hret _ Hres) as (xmls & Hlen & Hcat & Hserved).
  exists (xml :: xmls). split; [cbn; lia|]. split; [exact Hcat|].
  intros [|i] xml' Hi.
  - cbn in Hi. injection Hi as <-. unfold page_requests. cbn. rewrite app_nil_r. exact E.
  - cbn in Hi. specialize (Hserved i xml' Hi).
    rewrite Hw1 in Hserved. cbn [after_requests requests_sent] in Hserved.
    rewrite page_requests_cons. rewrite <- app_assoc in Hserved. exact Hserved.
Qed.

Lemma fetch_asks_pages_in_order_witness :
  exists k, (1 <= k <= 3)%nat
    /\ snd (koop_sru_api_request_all paging_server 2 "dt.type=Kamerstuk"
              (initial_world FileAbsent))
       = after_requests (initial_world FileAbsent)
           (page_requests "dt.type=Kamerstuk" 0 k).
Proof.
  destruct (fetch_asks_pages_in_order paging_server 2 "dt.type=Kamerstuk"
              (initial_world FileAbsent)
              (snd (koop_sru_api_request_all paging_server 2 "dt.type=Kamerstuk"
                      (initial_world FileAbsent)))
              (fst (koop_sru_api_request_all paging_server 2 "dt.type=Kamerstuk"
                      (initial_world FileAbsent))))
    as (k & Hk & Hw & _).
  - now destruct (koop_sru_api_request_all paging_server 2 "dt.type=Kamerstuk"
                    (initial_world FileAbsent)).
  - exists k. split; [exact Hk|exact Hw].
Defined.

(** X8. When the first response carries at least as many records as it
    declares (so for every honest result of at most one page, for an empty
    result that declares zero, and for a total that is negative), the fetch
    returns the records of that response as they are, after this single
    request and with any fuel, none included. *)
Theorem single_page_fetch
    (server : list request -> request -> transport) (fuel : nat) (query : string)
    (w : world) (xml : Element) (N : Z) :
  server (requests_sent w) (mkRequest query 0 100) = Response 200 (Some xml) ->
  sru_number_of_records xml = ret N ->
  N <= Z.of_nat (length (sru_records xml)) ->
  koop_sru_api_request_all server fuel query w
  = (Ret (sru_records xml), after_requests w [mkRequest query 0 100]).
Proof.
  intros Hfirst Htotal HN.
  unfold koop_sru_api_request_all. cbv zeta. unfold bind at 1.
  rewrite (koop_sru_api_request_ok _ _ _ _ _ Hfirst).
  unfold bind. rewrite Htotal. cbn [ret].
  now apply fetch_more_done.
Qed.

Lemma single_page_fetch_witness :
  koop_sru_api_request_all sample_server 0 "dt.type=Kamerstuk" (initial_world FileAbsent)
  = (Ret [sample_record],
     after_requests (initial_world FileAbsent) [mkRequest "dt.type=Kamerstuk" 0 100]).
Proof.
  apply (single_page_fetch sample_server 0 "dt.type=Kamerstuk" (initial_world FileAbsent)
           (sru_response "1" [sample_record]) 1);
    [reflexivity|reflexivity|change (1 <= 1); lia].
Defined.

(** ** The cache and its file, further *)

Lemma json_of_info_injective (i j : KstInfo) :
  json_of_info i = json_of_info j -> i = j.
Proof.
  intros H.
  pose (field := fun (k : string) (x : json) =>
                   match x with JObject m => m !! k | _ => None end).
  pose proof (f_equal (field "dossiernummer") H) as H1.
  pose proof (f_equal (field "ondernummer") H) as H2.
  pose proof (f_equal (field "vergaderjaar") H) as H3.
  pose proof (f_equal (field "kamer") H) as H4.
  pose proof (f_equal (field "kamerstuktype") H) as H5.
  pose proof (f_equal (field "documenttitel") H) as H6.
  pose proof (f_equal (field "dossiertitel") H) as H7.
  vm_compute in H1, H2, H3, H4, H5, H6, H7.
  destruct i, j. cbn in *. congruence.
Qed.

Lemma json_entry_of_cache (cache : gmap string (gmap string KstInfo)) (d o : string) :
  json_entry (json_of_cache cache) d o = json_of_info <$> cache_entry cache d o.
Proof.
  unfold json_entry, json_of_cache, cache_entry. rewrite lookup_fmap.
  destruct (cache !! d) as [inner|]; [|reflexivity]. cbn. apply lookup_fmap.
Qed.



(** X10. The first lookup of a process that has to fetch writes a cache
    file that holds the one entry just made: whatever the file held at the
    start, an entry of any other pair is no longer in it. *)
Theorem first_lookup_forgets_the_file
    (server : list request -> request -> transport) (file : file_state)
    (fuel : nat) (d o : string) (kst_info : KstInfo) (w' : world) :
  fst (startup file) = Ret () ->
  get_kst_information server fuel d o (snd (startup file)) = (Ret kst_info, w') ->
  cache_file w'
  = FileJson (json_of_cache
                {[ PyStr.remove_spaces d := {[ PyStr.remove_spaces o := kst_info ]} ]})
  /\ forall d0 o0,
       ~ (d0 = PyStr.remove_spaces d /\ o0 = PyStr.remove_spaces o) ->
       json_entry
         (json_of_cache
            {[ PyStr.remove_spaces d := {[ PyStr.remove_spaces o := kst_info ]} ]})
         d0 o0 = None.
Proof.
  intros _ H.
  destruct (startup_cache_empty file) as (Hempty & _ & _).
  assert (Hmiss : kamerstuk_information_cache (snd (startup file))
                    !! PyStr.remove_spaces d ≫= (.!! PyStr.remove_spaces o) = None)
    by now rewrite Hempty.
  destruct (lookup_miss server fuel d o _ _ w' Hmiss H) as (_ & _ & Hcache & Hfile).
  rewrite Hempty in Hcache. rewrite Hfile, Hcache.
  split; [reflexivity|].
  intros d0 o0 Hother.
  rewrite json_entry_of_cache.
  change ({[PyStr.remove_spaces d := {[PyStr.remove_spaces o := kst_info]}]}
          : gmap string (gmap string KstInfo))
    with (<[PyStr.remove_spaces d :=
              <[PyStr.remove_spaces o := kst_info]>
                (default ∅ ((∅ : gmap string (gmap string KstInfo))
                              !! PyStr.remove_spaces d))]>
            (∅ : gmap string (gmap string KstInfo))).
  rewrite cache_entry_store, decide_False by exact Hother.
  reflexivity.
Qed.

Lemma first_lookup_forgets_the_file_witness :
  (exists doc, other_file = FileJson doc
               /\ json_entry doc "36000" "1" = Some (json_of_info sample_info))
  /\ exists doc,
       cache_file (snd (get_kst_information sample_server 0 "34550" "4"
                          (snd (startup other_file)))) = FileJson doc
       /\ json_entry doc "36000" "1" = None.
Proof.
  split; [eexists; split; [reflexivity|vm_compute; reflexivity]|].
  destruct (first_lookup_forgets_the_file sample_server other_file 0 "34550" "4"
              sample_info
              (snd (get_kst_information sample_server 0 "34550" "4"
                      (snd (startup other_file)))))
    as [Hfile Hgone]; [reflexivity|vm_compute; reflexivity|].
  eexists. split; [exact Hfile|].
  apply Hgone. intros [Hd _]. discriminate Hd.
Defined.

(** ** Whitespace in the numbers *)

Lemma remove_spaces_app (a b : string) :
  PyStr.remove_spaces (a +:+ b) = PyStr.remove_spaces a +:+ PyStr.remove_spaces b.
Proof.
  induction a as [|c a IH]; [reflexivity|].
  change (String c a +:+ b) with (String c (a +:+ b)).
  cbn [PyStr.remove_spaces]. rewrite IH. now destruct (PyStr.is_space c).
Qed.

Lemma remove_spaces_all_spaces (ws : string) :
  all_spaces ws = true -> PyStr.remove_spaces ws = EmptyString.
Proof.
  induction ws as [|c ws IH]; [reflexivity|].
  cbn [all_spaces PyStr.remove_spaces]. intros H. apply andb_prop in H as [Hc Hws].
  rewrite Hc. now apply IH.
Qed.

Lemma remove_spaces_no_spaces (s : string) : no_spaces (PyStr.remove_spaces s) = true.
Proof.
  induction s as [|c s IH]; [reflexivity|].
  cbn [PyStr.remove_spaces]. destruct (PyStr.is_space c) eqn:E; [exact IH|].
  cbn [no_spaces]. now rewrite E, IH.
Qed.

Lemma remove_spaces_fixed (s : string) :
  no_spaces s = true -> PyStr.remove_spaces s = s.
Proof.
  induction s as [|c s IH]; [reflexivity|].
  cbn [no_spaces PyStr.remove_spaces]. intros H. apply andb_prop in H as [Hc Hs].
  destruct (PyStr.is_space c); [discriminate Hc|]. now rewrite IH.
Qed.

(** X11. Taking the whitespace out of a number leaves no whitespace in it
    and changes nothing when done again, and a run of whitespace put
    anywhere into a number does not change the result: the two spellings
    give the same query and the same place in the cache. *)
Theorem whitespace_is_ignored (a ws b : string) :
  all_spaces ws = true ->
  PyStr.remove_spaces (a +:+ ws +:+ b) = PyStr.remove_spaces (a +:+ b)
  /\ no_spaces (PyStr.remove_spaces (a +:+ ws +:+ b)) = true
  /\ PyStr.remove_spaces (PyStr.remove_spaces (a +:+ ws +:+ b))
     = PyStr.remove_spaces (a +:+ ws +:+ b)
  /\ (forall o, kst_query (PyStr.remove_spaces (a +:+ ws +:+ b)) o
                = kst_query (PyStr.remove_spaces (a +:+ b)) o)
  /\ same_up_to_whitespace (a +:+ ws +:+ b) (a +:+ b).
Proof.
  intros Hws.
  assert (Heq : PyStr.remove_spaces (a +:+ ws +:+ b) = PyStr.remove_spaces (a +:+ b)).
  { rewrite !remove_spaces_app, (remove_spaces_all_spaces _ Hws). reflexivity. }
  split; [exact Heq|]. split; [apply remove_spaces_no_spaces|].
  split; [apply remove_spaces_fixed, remove_spaces_no_spaces|].
  split; [intros o; now rewrite Heq|exact Heq].
Qed.

Lemma whitespace_is_ignored_witness :
  PyStr.remove_spaces "34 550" = "34550".
Proof.
  exact (proj1 (whitespace_is_ignored "34" " " "550" eq_refl)).
Defined.

(** ** What the cache holds *)

Lemma kamer_of_codes (creator : option string) : In (kamer_of creator) ["II"; "I"; "??"].
Proof.
  unfold kamer_of.
  destruct (equals_str creator "Tweede Kamer der Staten-Generaal"); [cbn; tauto|].
  destruct (equals_str creator "Eerste Kamer der Staten-Generaal"); cbn; tauto.
Qed.

Section WellFormed.

Variable server : list request -> request -> transport.

Lemma lookup_keeps_well_formed fuel d o w :
  (forall d0 o0 i, cache_entry (kamerstuk_information_cache w) d0 o0 = Some i ->
                   well_formed_entry d0 o0 i) ->
  forall d0 o0 i,
    cache_entry (kamerstuk_information_cache (snd (get_kst_information server fuel d o w)))
      d0 o0 = Some i ->
    well_formed_entry d0 o0 i.
Proof.
  intros Hok d0 o0 i.
  destruct (get_kst_information server fuel d o w) as [r w'] eqn:H. cbn [snd].
  destruct (cache_entry (kamerstuk_information_cache w)
              (PyStr.remove_spaces d) (PyStr.remove_spaces o)) as [j|] eqn:Hc.
  - rewrite (lookup_hit server fuel d o w j Hc) in H. injection H as <- <-. apply Hok.
  - destruct r as [kst_info|e|].
    + destruct (lookup_miss_info server fuel d o w kst_info w' Hc H)
        as (record & dst & title & vj & cr & Hi & Hw).
      rewrite Hw. unfold after_store, after_requests.
      cbn [kamerstuk_information_cache]. rewrite cache_entry_store.
      destruct (decide _) as [[-> ->]|]; [|apply Hok].
      intros [= <-]. rewrite Hi. unfold well_formed_entry, info_of_fields.
      cbn [dossiernummer ondernummer kamer].
      repeat split; auto using remove_spaces_no_spaces, kamer_of_codes.
    + destruct (lookup_miss server fuel d o w _ w' Hc H)
        as [_ [[-> _]|(_ & _ & _ & record & dst & title & vj & cr & ->)]];
        [apply Hok|].
      rewrite cache_entry_store.
      destruct (decide _) as [[-> ->]|]; [|apply Hok].
      intros [= <-]. unfold well_formed_entry, info_of_fields.
      cbn [dossiernummer ondernummer kamer].
      repeat split; auto using remove_spaces_no_spaces, kamer_of_codes.
    + destruct (lookup_miss server fuel d o w _ w' Hc H)
        as [_ [[-> _]|(_ & Habs & _)]]; [apply Hok|discriminate Habs].
Qed.

End WellFormed.

(** X12. Every entry that the cache of a process ever holds is filed
    under its own numbers: the [dossiernummer] and [ondernummer] it carries
    are the keys it is stored under, they hold no whitespace, and its
    [kamer] is "II", "I" or "??".  This holds after any run of lookups from
    the start of the process, whatever the endpoint answers and whatever
    the cache file held. *)
Theorem cache_entries_well_formed
    (server : list request -> request -> transport) (file : file_state)
    (calls : list (nat * string * string)) (d o : string) (i : KstInfo) :
  cache_entry
    (kamerstuk_information_cache (run_lookups server calls (snd (startup file)))) d o
  = Some i ->
  well_formed_entry d o i.
Proof.
  assert (Hstart : forall d0 o0 i0,
             cache_entry (kamerstuk_information_cache (snd (startup file))) d0 o0
             = Some i0 -> well_formed_entry d0 o0 i0).
  { intros d0 o0 i0. destruct (startup_cache_empty file) as [-> _]. discriminate. }
  revert Hstart d o i. generalize (snd (startup file)) as w.
  induction calls as [|[[fuel d1] o1] calls IH]; intros w Hok d o i; [apply Hok|].
  cbn [run_lookups]. apply IH. now apply lookup_keeps_well_formed.
Qed.

Lemma cache_entries_well_formed_witness :
  well_formed_entry "34550" "4" sample_info.
Proof.
  apply (cache_entries_well_formed sample_server FileNotJson
           [(0%nat, " 34 550", "4 "); (1%nat, "36000", "1")] "34550" "4" sample_info).
  vm_compute. reflexivity.
Defined.

(** ** Records and their fields *)

Section RecordLookups.

Variable server : list request -> request -> transport.

(** The try chain for the document title ends at the first of the three
    elements that exists. *)
Lemma documenttitel_chain record w :
  except_AttributeError (find_text record ns_overheidwetgeving "documenttitel")
    (except_AttributeError (find_text record ns_dcterms "title")
       (find_text record ns_dcterms "description")) w
  = (match documenttitel_element record with
     | Some e => Ret (text e)
     | None => Raise AttributeError
     end, w).
Proof.
  unfold except_AttributeError, find_text, documenttitel_element.
  destruct (ET.find_descendant record (qname ns_overheidwetgeving "documenttitel"));
    [reflexivity|].
  destruct (ET.find_descendant record (qname ns_dcterms "title")); [reflexivity|].
  now destruct (ET.find_descendant record (qname ns_dcterms "description")).
Qed.

(** The fields of a record of the product area [officielepublicaties]
    whose five fixed elements exist. *)
Lemma fields_officielepublicaties_found record w e_d e_o e_dst e_vj e_cr :
  ET.find_descendant record (qname ns_overheidwetgeving "dossiernummer") = Some e_d ->
  ET.find_descendant record (qname ns_overheidwetgeving "ondernummer") = Some e_o ->
  ET.find_descendant record (qname ns_overheidwetgeving "dossiertitel") = Some e_dst ->
  ET.find_descendant record (qname ns_overheidwetgeving "vergaderjaar") = Some e_vj ->
  ET.find_descendant record (qname ns_dcterms "creator") = Some e_cr ->
  fields_officielepublicaties record w
  = (match documenttitel_element record with
     | Some e => Ret (text e_dst, text e, text e_vj, text e_cr)
     | None => Raise AttributeError
     end, w).
Proof.
  intros Hd Ho Hdst Hvj Hcr. unfold fields_officielepublicaties.
  unfold bind at 1. unfold find_text at 1. rewrite Hd. cbn [ret].
  unfold bind at 1. unfold find_text at 1. rewrite Ho. cbn [ret].
  unfold bind at 1. unfold find_text at 1. rewrite Hdst. cbn [ret].
  unfold bind at 1. rewrite documenttitel_chain.
  destruct (documenttitel_element record) as [e|]; [|reflexivity].
  unfold bind at 1. unfold find_text at 1. rewrite Hvj. cbn [ret].
  unfold bind at 1. unfold find_text at 1. rewrite Hcr. reflexivity.
Qed.

Lemma fields_sgd_found record w e_d e_o e_title e_descr e_vj e_cr :
  ET.find_descendant record (qname ns_overheidwetgeving "dossiernummer") = Some e_d ->
  ET.find_descendant record (qname ns_overheidwetgeving "ondernummer") = Some e_o ->
  ET.find_descendant record (qname ns_dcterms "title") = Some e_title ->
  ET.find_descendant record (qname ns_dcterms "description") = Some e_descr ->
  ET.find_descendant record (qname ns_overheidwetgeving "vergaderjaar") = Some e_vj ->
  ET.find_descendant record (qname ns_dcterms "creator") = Some e_cr ->
  fields_sgd record w = (Ret (text e_title, text e_descr, text e_vj, text e_cr), w).
Proof.
  intros Hd Ho Ht Hde Hvj Hcr. unfold fields_sgd.
  unfold bind at 1. unfold find_text at 1. rewrite Hd. cbn [ret].
  unfold bind at 1. unfold find_text at 1. rewrite Ho. cbn [ret].
  unfold bind at 1. unfold find_text at 1. rewrite Ht. cbn [ret].
  unfold bind at 1. unfold find_text at 1. rewrite Hde. cbn [ret].
  unfold bind at 1. unfold find_text at 1. rewrite Hvj. cbn [ret].
  unfold bind at 1. unfold find_text at 1. rewrite Hcr. reflexivity.
Qed.

(** A lookup that misses, from the fetch to the fields. *)
Lemma lookup_after_fetch fuel d o w w1 record rest product_area :
  cache_entry (kamerstuk_information_cache w)
    (PyStr.remove_spaces d) (PyStr.remove_spaces o) = None ->
  koop_sru_api_request_all server fuel
    (kst_query (PyStr.remove_spaces d) (PyStr.remove_spaces o)) w
    = (Ret (record :: rest), w1) ->
  ET.find_descendant record (qname ns_c "product-area") = Some product_area ->
  forall (branch : M fields) (flds : res fields),
    (if equals_str (text product_area) "sgd" then Some (fields_sgd record)
     else if equals_str (text product_area) "officielepublicaties"
          then Some (fields_officielepublicaties record)
     else None) = Some branch ->
    branch w1 = (flds, w1) ->
    get_kst_information server fuel d o w
    = match flds with
      | Ret (dst, Some title, vj, cr) =>
          if writable (cache_file w1)
          then
            (Ret (info_of_fields (PyStr.remove_spaces d) (PyStr.remove_spaces o)
                    record dst title vj cr),
             after_store w1 (PyStr.remove_spaces d) (PyStr.remove_spaces o)
               (info_of_fields (PyStr.remove_spaces d) (PyStr.remove_spaces o)
                  record dst title vj cr)
               (c_printed (get_kamerstuktype_from_title title record false)))
          else
            (Raise PermissionError,
             after_failed_save w1 (PyStr.remove_spaces d) (PyStr.remove_spaces o)
               (info_of_fields (PyStr.remove_spaces d) (PyStr.remove_spaces o)
                  record dst title vj cr)
               (c_printed (get_kamerstuktype_from_title title record false)))
      | Ret (_, None, _, _) => (Raise AttributeError, w1)
      | Raise e => (Raise e, w1)
      | OutOfFuel => (OutOfFuel, w1)
      end.
Proof.
  intros Hmiss Hfetch Hpa branch flds Hbranch Hflds.
  unfold get_kst_information, cache_entry in *. cbv zeta. rewrite Hmiss.
  unfold bind at 1. rewrite Hfetch.
  unfold bind at 1. cbn [ret].
  unfold bind at 1. unfold find_text at 1. rewrite Hpa. cbn [ret].
  unfold bind at 1.
  destruct (equals_str (text product_area) "sgd");
    [|destruct (equals_str (text product_area) "officielepublicaties");
      [|discriminate Hbranch]];
    injection Hbranch as <-; unfold bind at 1; rewrite Hflds;
    (destruct flds as [[[[dst [title|]] vj] cr]|e|]; try reflexivity);
    unfold bind, print_all, cache_store, __save_kamerstuk_information_cache, ret;
    cbn [kamerstuk_information_cache cache_file requests_sent stdout];
    now destruct (writable (cache_file w1)).
Qed.

End RecordLookups.





(** X15. The fallback for the document title is taken only when an element
    is absent, not when it is empty: if the first title element that exists
    in a record of the product area [officielepublicaties] has no text, the
    lookup raises [AttributeError], also when a later element of the chain
    has a text, and nothing is stored. *)
Theorem textless_title_raises
    (server : list request -> request -> transport) (fuel : nat) (d o : string)
    (w w1 : world) (record : Element) (rest : list Element)
    (product_area e_d e_o e_dst e_vj e_cr e_title : Element) :
  cache_entry (kamerstuk_information_cache w)
    (PyStr.remove_spaces d) (PyStr.remove_spaces o) = None ->
  koop_sru_api_request_all server fuel
    (kst_query (PyStr.remove_spaces d) (PyStr.remove_spaces o)) w
    = (Ret (record :: rest), w1) ->
  ET.find_descendant record (qname ns_c "product-area") = Some product_area ->
  text product_area = Some "officielepublicaties" ->
  ET.find_descendant record (qname ns_overheidwetgeving "dossiernummer") = Some e_d ->
  ET.find_descendant record (qname ns_overheidwetgeving "ondernummer") = Some e_o ->
  ET.find_descendant record (qname ns_overheidwetgeving "dossiertitel") = Some e_dst ->
  ET.find_descendant record (qname ns_overheidwetgeving "vergaderjaar") = Some e_vj ->
  ET.find_descendant record (qname ns_dcterms "creator") = Some e_cr ->
  documenttitel_element record = Some e_title ->
  text e_title = None ->
  get_kst_information server fuel d o w = (Raise AttributeError, w1)
  /\ kamerstuk_information_cache w1 = kamerstuk_information_cache w
  /\ cache_file w1 = cache_file w.
Proof.
  intros Hmiss Hfetch Hpa Hpat Hd Ho Hdst Hvj Hcr Hdoc Htitle.
  destruct (network_only_request_all _ _ _ _ _ _ Hfetch) as (Hc & Hf & _).
  split; [|now split].
  rewrite (lookup_after_fetch server fuel d o w w1 record rest product_area
             Hmiss Hfetch Hpa (fields_officielepublicaties record)
             (Ret (text e_dst, None, text e_vj, text e_cr))).
  - reflexivity.
  - now rewrite Hpat.
  - rewrite (fields_officielepublicaties_found record w1 _ _ _ _ _ Hd Ho Hdst Hvj Hcr).
    now rewrite Hdoc, Htitle.
Qed.

Lemma textless_title_raises_witness :
  ET.find_descendant untitled_record (qname ns_dcterms "title")
  = Some (leaf (qname ns_dcterms "title") "Motie van het lid Omtzigt")
  /\ get_kst_information untitled_server 0 "34550" "4" (initial_world FileAbsent)
     = (Raise AttributeError,
        after_requests (initial_world FileAbsent)
          [mkRequest (kst_query "34550" "4") 0 100]).
Proof.
  split; [reflexivity|].
  refine (proj1 (textless_title_raises untitled_server 0 "34550" "4"
                   (initial_world FileAbsent) _ untitled_record []
                   (leaf (qname ns_c "product-area") "officielepublicaties")
                   (leaf (qname ns_overheidwetgeving "dossiernummer") "34550")
                   (leaf (qname ns_overheidwetgeving "ondernummer") "4")
                   (leaf (qname ns_overheidwetgeving "dossiertitel")
                      "Nota over de toestand van de financien")
                   (leaf (qname ns_overheidwetgeving "vergaderjaar") "2016-2017")
                   (leaf (qname ns_dcterms "creator") "Tweede Kamer der Staten-Generaal")
                   (mkElement (qname ns_overheidwetgeving "documenttitel") [] None [])
                   _ _ _ _ _ _ _ _ _ _ _));
    reflexivity.
Defined.

(** ** The errors of the extraction *)

Lemma only_ret {A} (a : A) : raises_AttributeError_only (ret a).
Proof. now intros w r w' [= <- <-]. Qed.

Lemma only_raise {A} : raises_AttributeError_only (@raise A AttributeError).
Proof. now intros w r w' [= <- <-]. Qed.

Lemma only_bind {A B} (c : M A) (k : A -> M B) :
  raises_AttributeError_only c -> (forall a, raises_AttributeError_only (k a)) ->
  raises_AttributeError_only (bind c k).
Proof.
  intros Hc Hk w r w' H. unfold bind in H.
  destruct (c w) as [[a|e|] w1] eqn:E; specialize (Hc _ _ _ E); cbn in Hc.
  - exact (Hk a _ _ _ H).
  - injection H as <- <-. exact Hc.
  - destruct Hc.
Qed.

Lemma only_except {A} (c h : M A) :
  raises_AttributeError_only c -> raises_AttributeError_only h ->
  raises_AttributeError_only (except_AttributeError c h).
Proof.
  intros Hc Hh w r w' H. unfold except_AttributeError in H.
  destruct (c w) as [[a|e|] w1] eqn:E; specialize (Hc _ _ _ E); cbn in Hc.
  - now injection H as <- <-.
  - subst e. exact (Hh _ _ _ H).
  - destruct Hc.
Qed.

Lemma only_find_text record ns local :
  raises_AttributeError_only (find_text record ns local).
Proof.
  unfold find_text. destruct (ET.find_descendant _ _); [apply only_ret|apply only_raise].
Qed.

Lemma only_fields_sgd record : raises_AttributeError_only (fields_sgd record).
Proof.
  unfold fields_sgd.
  repeat (apply only_bind; [apply only_find_text|intros ?]). apply only_ret.
Qed.

Lemma only_fields_officielepublicaties record :
  raises_AttributeError_only (fields_officielepublicaties record).
Proof.
  unfold fields_officielepublicaties.
  repeat (apply only_bind;
          [first [apply only_find_text
                 |repeat apply only_except; apply only_find_text]
          |intros ?]).
  apply only_ret.
Qed.



(** X17. Of the record the classifier reads the declared type and nothing
    else: two records that declare the same type (or both none) give every
    title the same member and the same printed lines, on a first pass and
    on a tail pass. *)
Theorem classification_reads_declared_type_only
    (title : string) (record record' : Element) (is_tail : bool) :
  opgegeven_kamerstuktype record = opgegeven_kamerstuktype record' ->
  c_type (get_kamerstuktype_from_title title record is_tail)
  = c_type (get_kamerstuktype_from_title title record' is_tail)
  /\ c_printed (get_kamerstuktype_from_title title record is_tail)
     = c_printed (get_kamerstuktype_from_title title record' is_tail)
  /\ c_calls (get_kamerstuktype_from_title title record is_tail)
     = c_calls (get_kamerstuktype_from_title title record' is_tail).
Proof.
  intros Hsame.
  rewrite (get_kamerstuktype_from_title_body title record),
    (get_kamerstuktype_from_title_body title record'), Hsame.
  destruct (first_match rules (normalise title) (opgegeven_kamerstuktype record'));
    [now repeat split|].
  destruct is_tail; [now repeat split|].
  cbv zeta. rewrite !tail_pass, Hsame.
  now destruct (first_match rules (normalise (title_tail_of (normalise title)))
                  (opgegeven_kamerstuktype record')).
Qed.

Lemma classification_reads_declared_type_only_witness :
  c_type (get_kamerstuktype_from_title "Lijst van vragen; Motie van het lid X"
            sample_record false)
  = c_type (get_kamerstuktype_from_title "Lijst van vragen; Motie van het lid X"
              legacy_record false).
Proof.
  exact (proj1 (classification_reads_declared_type_only
                  "Lijst van vragen; Motie van het lid X" sample_record legacy_record
                  false eq_refl)).
Defined.

(** ** Titles with characters from outside the 8-bit range *)

Lemma wide_lower_codes (s : string) :
  Wide.lower (Wide.codes s) = Some (Wide.codes (PyStr.lower s)).
Proof.
  unfold Wide.lower. induction s as [|c s IH]; [reflexivity|].
  cbn [Wide.codes Wide.each PyStr.lower PyStr.map]. fold (PyStr.lower s).
  rewrite IH. unfold Wide.lower_cp.
  assert (Hlt : (N_of_ascii c <? 256)%N = true)
    by (apply N.ltb_lt, N_ascii_bounded).
  now rewrite Hlt, ascii_N_embedding.
Qed.

Lemma wide_narrow_codes (s : string) : Wide.narrow_all (Wide.codes s) = s.
Proof.
  induction s as [|c s IH]; [reflexivity|].
  cbn [Wide.codes Wide.narrow_all]. rewrite IH. unfold Wide.narrow.
  assert (Hlt : (N_of_ascii c <? 256)%N = true)
    by (apply N.ltb_lt, N_ascii_bounded).
  now rewrite Hlt, ascii_N_embedding.
Qed.

(** On the titles of the 8-bit range the two forms of the classifier
    agree. *)
Lemma wide_agrees (title : string) (record : Element) (is_tail : bool) :
  Wide.get_kamerstuktype_from_title (Wide.codes title) record is_tail
  = Some (c_type (get_kamerstuktype_from_title title record is_tail)).
Proof.
  unfold Wide.get_kamerstuktype_from_title.
  rewrite wide_lower_codes, wide_narrow_codes. f_equal.
  apply classification_of_normalised.
  rewrite !normalise_map. unfold PyStr.lower.
  induction title as [|c s IH]; [reflexivity|].
  cbn [PyStr.map]. now rewrite normalise_lower_char, IH.
Qed.

